(** * Shallow embedding of the FCI report pipeline (report.py, report_aum.py)

    The two scripts build a PDF from database snapshots: a list of
    sub-report generators ([sub_report_*]) each query the database and
    return a list of reportlab flowables, and [generate_multi_report_pdf]
    concatenates them, extracts the as-of date for the page header, builds
    the document with a filtered fallback, and removes chart scratch files.

    Python strings are modelled as [string] (sequences of bytes, UTF-8
    literals kept byte for byte); database numerics (Decimal) as exact
    rationals; raising as the [Raise] constructor of a small error type. *)

From Stdlib Require Import String Ascii List ZArith Bool Lia.
Import ListNotations.
Open Scope string_scope.
Open Scope Z_scope.

(** ** Python exceptions

    [Raise msg] carries [str(e)] of the exception raised. *)

Inductive exc (A : Type) : Type :=
| Ok : A -> exc A
| Raise : string -> exc A.
Arguments Ok {A} _.
Arguments Raise {A} _.

Definition exc_bind {A B} (m : exc A) (k : A -> exc B) : exc B :=
  match m with Ok a => k a | Raise e => Raise e end.

Notation "x <- m ;; k" := (exc_bind m (fun x => k))
  (at level 61, m at next level, right associativity).

(** [try: m except Exception as e: h(e)] *)
Definition exc_catch {A} (m : exc A) (h : string -> exc A) : exc A :=
  match m with Ok a => Ok a | Raise e => h e end.

Fixpoint exc_mapM {A B} (f : A -> exc B) (l : list A) : exc (list B) :=
  match l with
  | [] => Ok []
  | x :: r => y <- f x ;; ys <- exc_mapM f r ;; Ok (y :: ys)
  end.

(** ** Byte strings: helpers used by the Python string methods *)

Fixpoint str_of (l : list ascii) : string :=
  match l with [] => EmptyString | c :: r => String c (str_of r) end.

Fixpoint chars (s : string) : list ascii :=
  match s with EmptyString => [] | String c r => c :: chars r end.

(** [s.startswith(p)] *)
Fixpoint startswith (s p : string) : bool :=
  match p, s with
  | EmptyString, _ => true
  | String c p', String d s' => Ascii.eqb c d && startswith s' p'
  | String _ _, EmptyString => false
  end.

(** [p in s] for strings *)
Fixpoint str_contains (s p : string) : bool :=
  startswith s p ||
  match s with EmptyString => false | String _ s' => str_contains s' p end.

(** [s.replace(old, new)]: left to right, non-overlapping; the empty
    pattern inserts [new] around every character, as CPython does. *)
Fixpoint replace_aux (fuel : nat) (old new s : string) : string :=
  match fuel with
  | O => s
  | S fuel' =>
      match s with
      | EmptyString => EmptyString
      | String c s' =>
          if startswith s old
          then new ++ replace_aux fuel' old new
                 (substring (String.length old) (String.length s) s)
          else String c (replace_aux fuel' old new s')
      end
  end.

Fixpoint insert_everywhere (new s : string) : string :=
  match s with
  | EmptyString => new
  | String c s' => new ++ String c (insert_everywhere new s')
  end.

Definition py_replace (s old new : string) : string :=
  match old with
  | EmptyString => insert_everywhere new s
  | _ => replace_aux (String.length s) old new s
  end.

(** ** Values returned by the database driver *)

(** A calendar date (year, month, day), as [datetime.date]. *)
Record date := mkdate { year : Z; month : Z; day : Z }.

Inductive value :=
| VText (s : string)          (* varchar / text column *)
| VNum (n : Z) (d : positive) (* numeric column, exact value n/d *)
| VDate (d : date)            (* date column *)
| VNull.                      (* SQL NULL, Python None *)

Definition row := list value.

(** [row[i]]: [IndexError] out of range. *)
Definition row_at (r : row) (i : nat) : exc value :=
  match nth_error r i with
  | Some v => Ok v
  | None => Raise "tuple index out of range"
  end.

(** ** Decimal digits and fixed-point formatting *)

Definition digit (n : Z) : ascii := ascii_of_nat (48 + Z.to_nat n).

(** Decimal digits of [m >= 0], most significant first, at least one. *)
Fixpoint digits_aux (fuel : nat) (m : Z) (acc : list ascii) : list ascii :=
  match fuel with
  | O => acc
  | S f =>
      let acc' := digit (m mod 10) :: acc in
      if m <? 10 then acc' else digits_aux f (m / 10) acc'
  end.

Definition z_digits (m : Z) : list ascii :=
  digits_aux (S (Z.to_nat (Z.log2 m))) m [].

(** Round [n / d] (n >= 0) to an integer, ties to even: the rounding of
    [format()] on both [float] (exact binary value) and [Decimal]
    (default context, ROUND_HALF_EVEN). *)
Definition round_half_even (n : Z) (d : positive) : Z :=
  let q := n / Z.pos d in
  let r := n mod Z.pos d in
  match Z.compare (2 * r) (Z.pos d) with
  | Lt => q
  | Gt => q + 1
  | Eq => if Z.even q then q else q + 1
  end.

(** Left-pad with '0' to at least [w] characters. *)
Definition zpad (w : nat) (l : list ascii) : list ascii :=
  repeat "0"%char (w - length l) ++ l.

(** Insert the grouping character ',' every three digits from the right. *)
Fixpoint group_rev (l : list ascii) : list ascii :=
  match l with
  | a :: b :: c :: ((_ :: _) as r) => a :: b :: c :: ","%char :: group_rev r
  | _ => l
  end.

Definition group3 (l : list ascii) : list ascii := rev (group_rev (rev l)).

(** Python's [format(x, spec)] for [spec] = [".{prec}f"] ([grouping] =
    false) or [",.{prec}f"] ([grouping] = true) on the exact value n/d.
    The sign comes from the value, so [-0.4] gives ["-0"], as in CPython. *)
Definition format_fixed (grouping : bool) (prec : nat) (n : Z) (d : positive)
  : string :=
  let m := round_half_even (Z.abs n * 10 ^ Z.of_nat prec) d in
  let ds := zpad (S prec) (z_digits m) in
  let k := (length ds - prec)%nat in
  let ip := firstn k ds in
  let fp := skipn k ds in
  let ip' := if grouping then group3 ip else ip in
  str_of ((if n <? 0 then ["-"%char] else []) ++ ip' ++
          (match prec with O => [] | _ => "."%char :: fp end)).

(** The format specification text itself, e.g. [",.2f"]. *)
Definition fixed_spec (grouping : bool) (prec : nat) : string :=
  (if grouping then "," else "") ++ "." ++
  str_of (z_digits (Z.of_nat prec)) ++ "f".

(** [format(v, spec)] on a database value: numbers format, [None] and
    strings raise, and [date.__format__] hands the spec to [strftime],
    which has no directive in it and returns it unchanged. *)
Definition py_format (grouping : bool) (prec : nat) (v : value) : exc string :=
  match v with
  | VNum n d => Ok (format_fixed grouping prec n d)
  | VNull => Raise "unsupported format string passed to NoneType.__format__"
  | VText _ => Raise "Unknown format code 'f' for object of type 'str'"
  | VDate _ => Ok (fixed_spec grouping prec)
  end.

(** The table cell formatting of the generators:
    ["{:,.{prec}f}".format(v).replace(",", ".")]. *)
Definition fmt_thousands (prec : nat) (v : value) : exc string :=
  s <- py_format true prec v ;; Ok (py_replace s "," ".").

(** ** Flowables (reportlab.platypus) *)

(** A table cell holds a string, a raw database value or an image. *)
Inductive cell :=
| CStr (s : string)
| CVal (v : value)
| CImg (filename : string).

Inductive elem :=
| Paragraph (text : string) (style : string)
| Spacer (width height : Z)
| PageBreak
| Image (filename : string) (width height : Z)
| Table (data : list (list cell)) (colWidths : list Z)
| Flowable (kind : string).   (* any other flowable class *)

(** ** The environment a run sees: database and chart back end *)

Inductive qid :=
(* report.py *)
| Q_efec_gerente | Q_efec_subcategoria | Q_efec_categoria
| Q_rentabilidades | Q_fondos_sin_clasificar
| Q_summary_aum | Q_summary_sub
(* report_aum.py *)
| Q_aum_efec_subcategoria | Q_aum_efec_categoria | Q_aum_summary.

Record env := mkenv {
  (** [connection.execute(query, params).fetchall()]: rows or a raise. *)
  db : qid -> list string -> exc (list row);
  (** the matplotlib part of a chart block ending in [plt.savefig(path)]:
      [Some e] when it raises. *)
  plot : string -> option string;
  (** whether [os.path.exists(path)] holds [t] ms after [savefig] returned. *)
  visible : string -> Z -> bool;
  (** [tempfile.gettempdir()] *)
  tempdir : string
}.

(** [os.path.join(a, b)] for a relative [b] (posixpath). *)
Definition path_join (a b : string) : string :=
  match a with
  | EmptyString => b
  | _ => if String.eqb (substring (String.length a - 1) 1 a) "/"
         then a ++ b else a ++ "/" ++ b
  end.

(** ** Chart file check

    [time.sleep(0.1); if not os.path.exists(path): raise FileNotFoundError(msg)]
    Result: the instants (ms after [savefig]) at which existence is
    probed, and the outcome. *)
Definition chart_sleep_ms : Z := 100.

Definition verify_chart_file (visible_at : Z -> bool) (msg : string)
  : list Z * exc unit :=
  let t := chart_sleep_ms in
  ([t], if visible_at t then Ok tt else Raise msg).

(** The body of a chart [try] block: plotting and saving, then the check. *)
Definition render_chart (E : env) (path msg : string) : exc unit :=
  match plot E path with
  | Some e => Raise e
  | None => snd (verify_chart_file (visible E path) (msg ++ path))
  end.

(** ** Generators *)

Record generator := mkgen {
  gname : string;                              (* [func.__name__] *)
  grun : env -> string -> exc (list elem)      (* [func(report_date)] *)
}.

(** The two-element "no data" answer of every generator. *)
Definition no_data (msg : string) : list elem :=
  [Paragraph msg "Normal"; PageBreak].

(** The body shared by the [sub_report_efec_*] generators (one query,
    one heading, one table of eight columns). *)
Definition sub_report_efec (q : qid) (none_msg title : string)
    (header : list string) (prec : nat) (widths : list Z)
    (E : env) (report_date : string) : exc (list elem) :=
  data <- db E q [report_date] ;;
  match data with
  | [] => Ok (no_data none_msg)
  | _ =>
      rows <- exc_mapM (fun r =>
                c1 <- row_at r 1 ;;
                cs <- exc_mapM (fun i => v <- row_at r i ;; fmt_thousands prec v)
                        [2;3;4;5;6;7;8]%nat ;;
                Ok (CVal c1 :: map CStr cs)) data ;;
      Ok [Paragraph title "Heading2"; Spacer 1 10;
          Paragraph ("Fecha: " ++ report_date) "Normal"; Spacer 1 5;
          Table (map CStr header :: rows) widths; PageBreak]
  end.

Definition efec_widths (w0 : Z) : list Z := [w0; 50; 50; 50; 50; 50; 50; 50].

(** [f"{r * 100:.3f}%" if r is not None else ""] of [sub_report_rentabilidades]. *)
Definition pct_cell (r : value) : exc string :=
  match r with
  | VNull => Ok ""
  | VNum n d => Ok (format_fixed false 3 (n * 100) d ++ "%")
  | VText _ => Raise "Unknown format code 'f' for object of type 'str'"
  | VDate _ => Raise "unsupported operand type(s) for *: 'datetime.date' and 'int'"
  end.

(** A Python [float]: the finite binary64 value [(-1)^neg * m * 2^e], or an
    infinity. *)
Inductive pyfloat :=
| PFin (neg : bool) (m : Z) (e : Z)
| PInf (neg : bool).

(** [2^k <= n / d], for [n, d > 0]. *)
Definition ge_pow2 (n d k : Z) : bool :=
  if 0 <=? k then d * 2 ^ k <=? n else d <=? n * 2 ^ (- k).

(** The binary64 number nearest to [(-1)^neg * n / d] ([n >= 0]), ties to
    even: a 53-bit significand on the binade [2^lg <= n/d < 2^(lg+1)],
    subnormal steps of [2^-1074], and an infinity once the rounded value
    reaches [2^1024]. This is [float(Decimal)], which converts [str(x)] by
    correct rounding. *)
Definition to_binary64 (neg : bool) (n : Z) (d : positive) : pyfloat :=
  if n =? 0 then PFin neg 0 0 else
  let k := Z.log2 n - Z.log2 (Z.pos d) in
  let lg := if ge_pow2 n (Z.pos d) k then k else k - 1 in
  let e := Z.max (lg - 52) (-1074) in
  let m := if 0 <=? e then round_half_even n (Z.to_pos (Z.pos d * 2 ^ e))
           else round_half_even (n * 2 ^ (- e)) d in
  if (0 <=? e) && (2 ^ 1024 <=? m * 2 ^ e) then PInf neg else PFin neg m e.

(** [float(v)]. Text cells are taken as non-numerals. *)
Definition py_float (v : value) : exc pyfloat :=
  match v with
  | VNum n d => Ok (to_binary64 (n <? 0) (Z.abs n) d)
  | VNull => Raise "float() argument must be a string or a real number, not 'NoneType'"
  | VText s => Raise ("could not convert string to float: '" ++ s ++ "'")
  | VDate _ => Raise "float() argument must be a string or a real number, not 'datetime.date'"
  end.

(** [format(f, spec)] on a float: the exact binary value is rounded as for
    [format_fixed]; the sign comes from the float (so [-0.0] gives "-0.00"),
    and an infinity prints "inf". *)
Definition pyfloat_format (grouping : bool) (prec : nat) (f : pyfloat) : string :=
  match f with
  | PFin neg m e =>
      let s := if 0 <=? e then format_fixed grouping prec (m * 2 ^ e) 1
               else format_fixed grouping prec m (Z.to_pos (2 ^ (- e))) in
      if neg then "-" ++ s else s
  | PInf neg => if neg then "-inf" else "inf"
  end.

(** ** Page decoration: [add_header_footer(canvas, doc)]

    The canvas calls it makes, in order. *)
Inductive draw :=
| SaveState
| RestoreState
| DrawImage (path : string) (x y width height : Z)
| SetFont (name : string) (size : Z)
| DrawString (x y : Z) (text : string)
| SetLineWidth (width : Z)
| SetStrokeColor (color : string)
| Rect (x y width height : Z).

(** [str(n)] of a Python int. *)
Definition py_str_int (n : Z) : string :=
  if n <? 0 then "-" ++ str_of (z_digits (- n)) else str_of (z_digits n).

(** [f"REPORTE DE FCI. Información al: {getattr(doc, 'fecha_value', 'N/A')}"] *)
Definition header_text (fecha_value : option string) : string :=
  "REPORTE DE FCI. Información al: " ++
  match fecha_value with Some v => v | None => "N/A" end.

(** The header and footer drawn on every page by both scripts; [today] is
    [datetime.now().strftime('%Y-%m-%d')]. *)
Definition header_footer_common (fecha_value : option string) (today : string)
    (page : Z) : list draw :=
  [SaveState; DrawImage "./brand_logo.png" 40 740 100 45;
   SetFont "MS Sans Serif" 10; DrawString 160 760 (header_text fecha_value);
   RestoreState;
   SaveState; SetFont "MS Sans Serif" 10;
   DrawString 40 15 ("Generado por Outlier. Fecha:" ++ today ++ " - Página " ++ py_str_int page);
   RestoreState].

(** The check of [Table(data, colWidths=widths)] on a non-empty [data]:
    the number of columns is the longest row's length; reportlab raises
    [ValueError] when it differs from the number of widths ("%d columns in
    data but %d in column widths"), then when some row is shorter ("not
    enough columns in row"). So it passes exactly when every row has as
    many cells as there are widths. The messages start with
    [Table.identity()], which prints the object's address; it is written
    [<Table>] here. *)
Definition table_check (data : list (list cell)) (widths : list Z) : exc unit :=
  let ncols := fold_left Nat.max (map (@length cell) data) 0%nat in
  if negb (Nat.eqb ncols (length widths)) then
    Raise ("<Table> data error - " ++ py_str_int (Z.of_nat ncols) ++
           " columns in data but " ++ py_str_int (Z.of_nat (length widths)) ++
           " in column widths")
  else if forallb (fun r => Nat.eqb (length r) ncols) data then Ok tt
  else Raise "<Table> not enough columns in row".

(** *** report.py *)
Module Report.

Definition sub_report_cover (E : env) (report_date : string) : exc (list elem) :=
  Ok [Spacer 1 12; Spacer 1 12; Spacer 1 12;
      Paragraph "REPORTE INDUSTRIA FCI" "CoverTitle";
      Spacer 1 12; Spacer 1 12; Spacer 1 12;
      Paragraph ("Datos al " ++ report_date) "CoverDate";
      PageBreak].

Definition sub_report_efec_gerente : env -> string -> exc (list elem) :=
  sub_report_efec Q_efec_gerente
    "No data available for Efectos Gerente report."
    "EFECTOS DE SUSCRIPCION NETOS POR GERENTE (en millones):"
    ["GERENTE"; "1D"; "1SEM"; "MTD"; "1M"; "3M"; "YTD"; "1Y"] 2 (efec_widths 165).

Definition sub_report_efec_subcategoria : env -> string -> exc (list elem) :=
  sub_report_efec Q_efec_subcategoria
    "No data available for Efectos Subcategoria report."
    "EFECTOS DE SUSCRIPCION NETOS POR SUBCATEGORIA (en millones):"
    ["SUB-CATEGORIA"; "1D"; "1SEM"; "MTD"; "1M"; "3M"; "YTD"; "1Y"] 0 (efec_widths 161).

Definition sub_report_efec_categoria : env -> string -> exc (list elem) :=
  sub_report_efec Q_efec_categoria
    "No data available for Efectos Categoria report."
    "EFECTOS DE SUSCRIPCION NETOS POR CATEGORIA (en millones):"
    ["CATEGORIA"; "1D"; "1SEM"; "MTD"; "1M"; "3M"; "YTD"; "1Y"] 0 (efec_widths 150).

(** The last part of [sub_report_summary]: place the charts. *)
Definition summary_charts (aum_chart_path sub_chart_path : option string)
  : list elem :=
  match aum_chart_path, sub_chart_path with
  | Some a, Some s => [Table [[CImg a; CImg s]] [250; 250]]
  | Some a, None => [Image a 250 250]
  | None, _ => [Paragraph "No charts generated." "Normal"]
  end.

Definition sub_report_summary (E : env) (report_date : string) : exc (list elem) :=
  aum_data <- db E Q_summary_aum [report_date] ;;
  sub_data <- db E Q_summary_sub [] ;;
  match aum_data with
  | [] => Ok (no_data "No AUM data available for Summary report.")
  | _ =>
      let elements := [Spacer 1 10; Spacer 1 10] in
      let aum_chart_path := path_join (tempdir E) "aum_chart.png" in
      match render_chart E aum_chart_path "AUM chart file not created: " with
      | Raise e =>
          Ok (elements ++ [Paragraph ("AUM chart failed: " ++ e) "Normal"; PageBreak])%list
      | Ok _ =>
          match sub_data with
          | [] =>
              Ok (elements ++ [Paragraph "No Subscriptions data available." "Normal"]
                  ++ summary_charts (Some aum_chart_path) None ++ [PageBreak])%list
          | _ =>
              let sub_chart_path := path_join (tempdir E) "sub_chart.png" in
              match render_chart E sub_chart_path
                      "Subscriptions chart file not created: " with
              | Raise e =>
                  Ok (elements ++ [Paragraph ("Subscriptions chart failed: " ++ e) "Normal";
                                   PageBreak])%list
              | Ok _ =>
                  Ok (elements ++ summary_charts (Some aum_chart_path) (Some sub_chart_path)
                      ++ [PageBreak])%list
              end
          end
      end
  end.

Definition sub_report_rentabilidades (E : env) (report_date : string)
  : exc (list elem) :=
  data <- db E Q_rentabilidades [report_date] ;;
  match data with
  | [] => Ok (no_data "No data available for Rentabilidades report.")
  | _ =>
      rows <- exc_mapM (fun r =>
                c1 <- row_at r 1 ;;
                c2 <- (v <- row_at r 2 ;; fmt_thousands 0 v) ;;
                c3 <- row_at r 3 ;;
                c4 <- row_at r 4 ;;
                ps <- exc_mapM pct_cell (skipn 5 r) ;;
                Ok ([CVal c1; CStr c2; CVal c3; CVal c4] ++ map CStr ps)%list) data ;;
      let table_data :=
        map CStr ["FONDO"; "PATRIMONIO"; "CATEGORIA"; "SUBCATEGORIA";
                  "1D"; "WTD"; "MTD"; "1M"; "3M"; "YTD"; "1Y"] :: rows in
      let widths := [127; 60; 60; 60; 35; 35; 35; 35; 35; 35; 35] in
      _ <- table_check table_data widths ;;
      Ok [Paragraph "RENTABILIDADES VCP (en %):" "Heading2"; Spacer 1 10;
          Paragraph ("Fecha: " ++ report_date) "Normal"; Spacer 1 5;
          Table table_data widths; PageBreak]
  end.

Definition sub_report_fondos_sin_clasificar (E : env) (report_date : string)
  : exc (list elem) :=
  data <- db E Q_fondos_sin_clasificar [] ;;
  match data with
  | [] => Ok (no_data "No data available for Fondos Sin Clasificar report.")
  | _ =>
      rows <- exc_mapM (fun r => c <- row_at r 0 ;; Ok [CVal c]) data ;;
      Ok [Paragraph "FONDOS SIN CLASIFICAR:" "Heading2"; Spacer 1 10;
          Paragraph ("Fecha: " ++ report_date) "Normal"; Spacer 1 5;
          Table ([CStr "FONDO"] :: rows) [225]; PageBreak]
  end.

(** [sub_reports] of [main], in order. *)
Definition sub_reports : list generator :=
  [mkgen "sub_report_cover" sub_report_cover;
   mkgen "sub_report_summary" sub_report_summary;
   mkgen "sub_report_efec_categoria" sub_report_efec_categoria;
   mkgen "sub_report_efec_subcategoria" sub_report_efec_subcategoria;
   mkgen "sub_report_efec_gerente" sub_report_efec_gerente;
   mkgen "sub_report_rentabilidades" sub_report_rentabilidades;
   mkgen "sub_report_fondos_sin_clasificar" sub_report_fondos_sin_clasificar].

(** report.py also draws a border on the first page (the cover). *)
Definition add_header_footer (fecha_value : option string) (today : string) (page : Z)
  : list draw :=
  (header_footer_common fecha_value today page ++
   if page =? 1
   then [SaveState; SetLineWidth 2; SetStrokeColor "black"; Rect 15 10 575 777; RestoreState]
   else [])%list.

End Report.

(** *** report_aum.py *)
Module ReportAum.

Definition sub_report_efec_subcategoria : env -> string -> exc (list elem) :=
  sub_report_efec Q_aum_efec_subcategoria
    "No data available for Efectos Subcategoria report."
    "EFECTOS DE SUSCRIPCION NETOS POR SUBCATEGORIA (en millones):"
    ["SUB-CATEGORIA"; "1D"; "1SEM"; "MTD"; "1M"; "3M"; "YTD"; "1Y"] 0 (efec_widths 150).

Definition sub_report_efec_categoria : env -> string -> exc (list elem) :=
  sub_report_efec Q_aum_efec_categoria
    "No data available for Efectos Categoria report."
    "EFECTOS DE SUSCRIPCION NETOS POR CATEGORIA (en millones):"
    ["CATEGORIA"; "1D"; "1SEM"; "MTD"; "1M"; "3M"; "YTD"; "1Y"] 0 (efec_widths 150).

(** [q_dias = 7] is spliced into the query and the heading. *)
Definition sub_report_summary (E : env) (report_date : string) : exc (list elem) :=
  data <- db E Q_aum_summary [report_date] ;;
  match data with
  | [] => Ok (no_data "No data available for Summary report.")
  | _ =>
      rows <- exc_mapM (fun r =>
                v0 <- row_at r 0 ;;
                v1 <- row_at r 1 ;;
                f <- py_float v1 ;;
                let aum := py_replace (pyfloat_format true 2 f) "," "." in
                Ok [CVal v0; CStr aum]) data ;;
      let elements :=
        [Paragraph "AUM POR FECHA (Últimos 7 Días)" "Heading2"; Spacer 1 10;
         Paragraph "A continuación, se presenta un resumen del patrimonio total por fecha, seguido de un gráfico." "Normal";
         Spacer 1 5;
         Table ([CStr "Fecha"; CStr "Total AUM (billones)"] :: rows) [200; 200];
         Spacer 1 20] in
      let chart_path := path_join (tempdir E) "temp_chart.png" in
      let chart :=
        match render_chart E chart_path "Chart file not created: " with
        | Ok _ => [Image chart_path 400 200]
        | Raise e => [Paragraph ("Chart failed: " ++ e) "Normal"]
        end in
      Ok (elements ++ chart ++ [PageBreak])%list
  end.

Definition sub_reports : list generator :=
  [mkgen "sub_report_efec_subcategoria" sub_report_efec_subcategoria;
   mkgen "sub_report_efec_categoria" sub_report_efec_categoria;
   mkgen "sub_report_summary" sub_report_summary].

Definition add_header_footer (fecha_value : option string) (today : string) (page : Z)
  : list draw :=
  header_footer_common fecha_value today page.

End ReportAum.

(** ** Strings of the composer: report names and the date marker *)

Definition is_lower (c : ascii) : bool :=
  let n := nat_of_ascii c in (97 <=? n)%nat && (n <=? 122)%nat.
Definition is_upper (c : ascii) : bool :=
  let n := nat_of_ascii c in (65 <=? n)%nat && (n <=? 90)%nat.
Definition to_upper (c : ascii) : ascii :=
  if is_lower c then ascii_of_nat (nat_of_ascii c - 32) else c.
Definition to_lower (c : ascii) : ascii :=
  if is_upper c then ascii_of_nat (nat_of_ascii c + 32) else c.

(** [s.title()] on ASCII: a letter is upper-cased after a non-letter and
    lower-cased after a letter. *)
Fixpoint title_aux (prev_cased : bool) (s : string) : string :=
  match s with
  | EmptyString => EmptyString
  | String c s' =>
      let cased := is_lower c || is_upper c in
      String (if cased then (if prev_cased then to_lower c else to_upper c) else c)
             (title_aux cased s')
  end.
Definition py_title (s : string) : string := title_aux false s.

(** [func.__name__.replace('sub_report_', '').replace('_', ' ').title()] *)
Definition report_name (name : string) : string :=
  py_title (py_replace (py_replace name "sub_report_" "") "_" " ").

(** ** Unicode text as UTF-8 bytes

    A Python [str] is modelled by its UTF-8 encoding. *)

Definition byte (c : ascii) : Z := Z.of_nat (nat_of_ascii c).

(** The ASCII white space of [str.isspace]: \t \n \v \f \r, \x1c-\x1f
    and space. *)
Definition is_space (c : ascii) : bool :=
  let n := nat_of_ascii c in
  ((9 <=? n) && (n <=? 13))%nat || ((28 <=? n) && (n <=? 32))%nat.

(** The other white space of [str.isspace] (also the [\s] of a [str]
    pattern and what [str.strip()] removes): U+0085 and U+00A0 (two
    bytes), U+1680, U+2000-U+200A, U+2028, U+2029, U+202F, U+205F and
    U+3000 (three bytes). *)
Definition ws2 (a b : ascii) : bool :=
  (byte a =? 194) && ((byte b =? 133) || (byte b =? 160)).

Definition ws3 (a b c : ascii) : bool :=
  let n := byte a in let m := byte b in let k := byte c in
  ((n =? 225) && (m =? 154) && (k =? 128))
  || ((n =? 226) && (m =? 128)
      && (((128 <=? k) && (k <=? 138)) || (k =? 168) || (k =? 169) || (k =? 175)))
  || ((n =? 226) && (m =? 129) && (k =? 159))
  || ((n =? 227) && (m =? 128) && (k =? 128)).

(** A white-space character starts at the head of [l]. In valid UTF-8 a
    lead byte or an ASCII byte never occurs inside another character, so
    testing at every byte finds exactly the white-space characters. *)
Definition ws_at (l : list ascii) : bool :=
  match l with
  | a :: b :: c :: _ => is_space a || ws2 a b || ws3 a b c
  | [a; b] => is_space a || ws2 a b
  | [a] => is_space a
  | [] => false
  end.

Definition is_cont (c : ascii) : bool := (128 <=? byte c) && (byte c <? 192).

(** Strict UTF-8, as Python's decoder: no overlong forms, no surrogates,
    nothing above U+10FFFF. *)
Fixpoint utf8_valid (l : list ascii) : bool :=
  match l with
  | [] => true
  | a :: r =>
      let n := byte a in
      if n <? 128 then utf8_valid r
      else if (194 <=? n) && (n <=? 223) then
        match r with b :: r1 => is_cont b && utf8_valid r1 | [] => false end
      else if (224 <=? n) && (n <=? 239) then
        match r with
        | b :: c :: r2 =>
            is_cont b && is_cont c
            && (negb (n =? 224) || (160 <=? byte b))
            && (negb (n =? 237) || (byte b <? 160)) && utf8_valid r2
        | _ => false
        end
      else if (240 <=? n) && (n <=? 244) then
        match r with
        | b :: c :: d :: r3 =>
            is_cont b && is_cont c && is_cont d
            && (negb (n =? 240) || (144 <=? byte b))
            && (negb (n =? 244) || (byte b <? 144)) && utf8_valid r3
        | _ => false
        end
      else false
  end.

(** The code point at the head of [s] and the rest; [None] on bytes that
    do not start a valid sequence (in [sys.argv] these decode to lone
    surrogates, which are no digits). *)
Definition utf8_next (s : string) : option (Z * string) :=
  match s with
  | EmptyString => None
  | String a r =>
      let n := byte a in
      if n <? 128 then Some (n, r) else
      match r with
      | EmptyString => None
      | String b r1 =>
          if (194 <=? n) && (n <=? 223) && is_cont b
          then Some ((n - 192) * 64 + (byte b - 128), r1) else
          match r1 with
          | EmptyString => None
          | String c r2 =>
              if (224 <=? n) && (n <=? 239) && is_cont b && is_cont c
                 && (negb (n =? 224) || (160 <=? byte b))
                 && (negb (n =? 237) || (byte b <? 160))
              then Some ((n - 224) * 4096 + (byte b - 128) * 64 + (byte c - 128), r2) else
              match r2 with
              | EmptyString => None
              | String d r3 =>
                  if (240 <=? n) && (n <=? 244) && is_cont b && is_cont c && is_cont d
                     && (negb (n =? 240) || (144 <=? byte b))
                     && (negb (n =? 244) || (byte b <? 144))
                  then Some ((n - 240) * 262144 + (byte b - 128) * 4096
                             + (byte c - 128) * 64 + (byte d - 128), r3)
                  else None
              end
          end
      end
  end.

(** The zeros of the 66 runs of ten decimal digits (category Nd) of the
    Unicode 14.0 database of Python 3.11. The [\d] of a [str] pattern
    matches exactly these digits, and [int()] reads each as its value. *)
Definition nd_zeros : list Z :=
  [48; 1632; 1776; 1984; 2406; 2534; 2662; 2790; 2918; 3046; 3174; 3302;
   3430; 3558; 3664; 3792; 3872; 4160; 4240; 6112; 6160; 6470; 6608; 6784;
   6800; 6992; 7088; 7232; 7248; 42528; 43216; 43264; 43472; 43504; 43600;
   44016; 65296; 66720; 68912; 69734; 69872; 69942; 70096; 70384; 70736;
   70864; 71248; 71360; 71472; 71904; 72016; 72784; 73040; 73120; 92768;
   92864; 93008; 120782; 120792; 120802; 120812; 120822; 123200; 123632;
   125264; 130032].

Definition unicode_digit (cp : Z) : option Z :=
  match find (fun z => (z <=? cp) && (cp <? z + 10)) nd_zeros with
  | Some z => Some (cp - z)
  | None => None
  end.

(** [\d] at the head of [s]: the digit's value and the rest. *)
Definition udigit (s : string) : option (Z * string) :=
  match utf8_next s with
  | Some (cp, r) =>
      match unicode_digit cp with Some v => Some (v, r) | None => None end
  | None => None
  end.

(** The longest prefix without white space ([\S+] at the head). *)
Fixpoint take_nonspace (s : string) : string :=
  match s with
  | EmptyString => EmptyString
  | String c s' => if ws_at (chars s) then EmptyString else String c (take_nonspace s')
  end.

Fixpoint drop (n : nat) (s : string) : string :=
  match n, s with
  | O, _ => s
  | S _, EmptyString => EmptyString
  | S n', String _ s' => drop n' s'
  end.

(** [re.search(r"Fecha: (\S+)", s).group(1)], [None] when no match. *)
Fixpoint fecha_search (s : string) : option string :=
  let next := match s with
              | EmptyString => None
              | String _ s' => fecha_search s'
              end in
  if startswith s "Fecha: "
  then match take_nonspace (drop 7 s) with
       | EmptyString => next
       | g => Some g
       end
  else next.

(** ** The composer's state and its monad

    State survives a raise, as Python mutations do. *)

Record world := mkworld {
  all_elements : list elem;
  fecha_value : option string;         (* [doc.fecha_value]; [None]: unset *)
  image_paths : list string;
  builds : list (list elem * bool);    (* [doc.build] calls and success *)
  files : list string;                 (* paths present on disk *)
  log : list string                    (* console output *)
}.

Definition M (A : Type) : Type := world -> exc A * world.

Definition m_ret {A} (a : A) : M A := fun w => (Ok a, w).
Definition m_bind {A B} (m : M A) (k : A -> M B) : M B :=
  fun w => match m w with
           | (Ok a, w') => k a w'
           | (Raise e, w') => (Raise e, w')
           end.
Definition m_catch {A} (m : M A) (h : string -> M A) : M A :=
  fun w => match m w with
           | (Ok a, w') => (Ok a, w')
           | (Raise e, w') => h e w'
           end.
Definition m_lift {A} (m : exc A) : M A := fun w => (m, w).
Definition m_get : M world := fun w => (Ok w, w).
Definition m_put (w : world) : M unit := fun _ => (Ok tt, w).

Notation "x <-m c ;; k" := (m_bind c (fun x => k))
  (at level 61, c at next level, right associativity).
Notation "c ;;m k" := (m_bind c (fun _ => k))
  (at level 61, right associativity).

Definition set_all_elements (l : list elem) (w : world) : world :=
  mkworld l (fecha_value w) (image_paths w) (builds w) (files w) (log w).
Definition set_fecha (v : string) (w : world) : world :=
  mkworld (all_elements w) (Some v) (image_paths w) (builds w) (files w) (log w).
Definition set_image_paths (l : list string) (w : world) : world :=
  mkworld (all_elements w) (fecha_value w) l (builds w) (files w) (log w).
Definition set_builds (l : list (list elem * bool)) (w : world) : world :=
  mkworld (all_elements w) (fecha_value w) (image_paths w) l (files w) (log w).
Definition set_files (l : list string) (w : world) : world :=
  mkworld (all_elements w) (fecha_value w) (image_paths w) (builds w) l (log w).
Definition set_log (l : list string) (w : world) : world :=
  mkworld (all_elements w) (fecha_value w) (image_paths w) (builds w) (files w) l.

Definition modify (f : world -> world) : M unit := fun w => (Ok tt, f w).
Definition print (s : string) : M unit := modify (fun w => set_log (log w ++ [s]) w).

(** What the composer's collaborators do.
    - [build_fails es]: [Some (e, rest)] when [doc.build(es, ...)] raises
      [e]. reportlab removes each flowable from the list it is given as it
      handles it ([del flowables[0]] before rendering it), so a build that
      returns leaves that list empty, and one that raises leaves [rest],
      what it had not removed yet (all of [es] when it fails before the
      first flowable, nothing when it fails while saving the file).
    - [remove_fails p]: [Some e] when [os.remove(p)] raises [e].
    - [para_text t]: the [.text] of [Paragraph(t, style)]; reportlab keeps
      [cleanBlockQuotedText(t)]: each line stripped, runs of white space
      collapsed, the lines joined by one space.
    - [para_error t]: [Some e] when [Paragraph(t, style)] raises [e], the
      [ValueError] of its markup parser on malformed markup in [t] (an
      unclosed tag, say). *)
Record cenv := mkcenv {
  build_fails : list elem -> option (string * list elem);
  remove_fails : string -> option string;
  para_text : string -> string;
  para_error : string -> option string
}.

(** [type(e).__name__] *)
Definition elem_type_name (e : elem) : string :=
  match e with
  | Paragraph _ _ => "Paragraph"
  | Spacer _ _ => "Spacer"
  | PageBreak => "PageBreak"
  | Image _ _ _ => "Image"
  | Table _ _ => "Table"
  | Flowable kind => kind
  end.

Fixpoint join_sep (sep : string) (l : list string) : string :=
  match l with
  | [] => ""
  | [x] => x
  | x :: r => x ++ sep ++ join_sep sep r
  end.

(** [str()] of a list of class names: ['Paragraph', 'PageBreak']. *)
Definition names_repr (ns : list string) : string :=
  "[" ++ join_sep ", " (map (fun n => "'" ++ n ++ "'") ns) ++ "]".

Definition types_repr (es : list elem) : string := names_repr (map elem_type_name es).

(** ** [generate_multi_report_pdf] (identical in report.py and report_aum.py) *)

(** The inner [for elem in sub_elements] loop: the first Paragraph whose
    [.text] has a date marker sets [doc.fecha_value] and [break]s; Images
    met before that are recorded for cleanup. *)
Fixpoint scan_elements (CE : cenv) (report_name : string) (es : list elem) : M unit :=
  match es with
  | [] => m_ret tt
  | e :: rest =>
      match e with
      | Paragraph t _ =>
          let text := para_text CE t in
          if str_contains text "Fecha:" then
            match fecha_search text with
            | Some v =>
                modify (set_fecha v) ;;m
                print (report_name ++ ": Set doc.fecha_value to " ++ v)
            | None => scan_elements CE report_name rest
            end
          else scan_elements CE report_name rest
      | Image f _ _ =>
          modify (fun w => set_image_paths (image_paths w ++ [f]) w) ;;m
          scan_elements CE report_name rest
      | _ => scan_elements CE report_name rest
      end
  end.

(** The text of the error placeholder of a raising generator. *)
Definition placeholder_text (report_name e : string) : string :=
  "Error in " ++ report_name ++ ": " ++ e.

(** The error placeholder appended for a raising generator. *)
Definition error_elements (report_name e : string) : list elem :=
  [Paragraph (placeholder_text report_name e) "Normal"; PageBreak].

(** One iteration of [for func in sub_report_functions]. The [except]
    handler is outside the [try]: when its [Paragraph(...)] raises, that
    exception leaves the composer. *)
Definition run_sub_report (CE : cenv) (E : env) (report_date : string) (g : generator)
  : M unit :=
  let name := report_name (gname g) in
  m_catch
    (print ("Generating sub-report: " ++ name) ;;m
     sub_elements <-m m_lift (grun g E report_date) ;;
     match sub_elements with
     | [] => m_ret tt
     | _ =>
         modify (fun w => set_all_elements (all_elements w ++ sub_elements)%list w) ;;m
         print (name ++ ": Elements added (" ++ py_str_int (Z.of_nat (length sub_elements))
                ++ "): " ++ types_repr sub_elements) ;;m
         scan_elements CE name sub_elements
     end)
    (fun e =>
       print ("Error in sub-report '" ++ name ++ "': " ++ e) ;;m
       match para_error CE (placeholder_text name e) with
       | Some err => m_lift (Raise err)
       | None =>
           modify (fun w => set_all_elements (all_elements w ++ error_elements name e)%list w)
       end).

Fixpoint run_sub_reports (CE : cenv) (E : env) (report_date : string)
    (gs : list generator) : M unit :=
  match gs with
  | [] => m_ret tt
  | g :: gs' => run_sub_report CE E report_date g ;;m run_sub_reports CE E report_date gs'
  end.

(** [doc.build(es, ...)]: the call is recorded with its outcome, and
    [keep rest] stores what is left of the list passed (the first build is
    passed [all_elements] itself, the retry a list of its own). *)
Definition doc_build (CE : cenv) (es : list elem) (keep : list elem -> world -> world)
  : M unit :=
  fun w =>
    match build_fails CE es with
    | Some (e, rest) => (Raise e, keep rest (set_builds (builds w ++ [(es, false)]) w))
    | None => (Ok tt, keep [] (set_builds (builds w ++ [(es, true)]) w))
    end.

(** [type(e) in (Paragraph, Table, Spacer, PageBreak, Image)] *)
Definition is_safe (e : elem) : bool :=
  match e with
  | Flowable _ => false
  | _ => true
  end.

(** The build with its filtered retry. The filter reads [all_elements]
    after the failed build, i.e. what that build left in it. *)
Definition build_pdf (CE : cenv) (output_file : string) : M unit :=
  w <-m m_get ;;
  print ("All elements: " ++ py_str_int (Z.of_nat (length (all_elements w))) ++ " "
         ++ types_repr (all_elements w)) ;;m
  m_catch
    (doc_build CE (all_elements w) set_all_elements ;;m
     print ("Multi-report PDF generated: " ++ output_file))
    (fun e =>
       print ("Error during PDF build: " ++ e) ;;m
       w' <-m m_get ;;
       let safe_elements := filter is_safe (all_elements w') in
       print ("Safe types: " ++ names_repr ["Paragraph"; "Table"; "Spacer"; "PageBreak"; "Image"]) ;;m
       print ("All element types: " ++ types_repr (all_elements w')) ;;m
       print ("Safe elements: " ++ py_str_int (Z.of_nat (length safe_elements)) ++ " "
              ++ types_repr safe_elements) ;;m
       match safe_elements with
       | [] => print "No safe elements to build PDF"
       | _ =>
           m_catch (doc_build CE safe_elements (fun _ w0 => w0) ;;m
                    print ("Minimal PDF generated: " ++ output_file))
                   (fun e2 => print ("Minimal build failed: " ++ e2))
       end).

(** [os.remove(path)] *)
Definition os_remove (CE : cenv) (path : string) : M unit :=
  fun w =>
    match remove_fails CE path with
    | Some e => (Raise e, w)
    | None => (Ok tt, set_files (filter (fun f => negb (String.eqb f path)) (files w)) w)
    end.

Fixpoint cleanup (CE : cenv) (paths : list string) : M unit :=
  match paths with
  | [] => m_ret tt
  | p :: ps =>
      w <-m m_get ;;
      (if existsb (String.eqb p) (files w)
       then m_catch (os_remove CE p ;;m print ("Cleaned up: " ++ p))
                    (fun e => print ("Failed to clean up " ++ p ++ ": " ++ e))
       else m_ret tt) ;;m
      cleanup CE ps
  end.

Definition generate_multi_report_pdf_m (CE : cenv) (E : env) (output_file : string)
    (gs : list generator) (report_date : string) : M unit :=
  run_sub_reports CE E report_date gs ;;m
  build_pdf CE output_file ;;m
  w <-m m_get ;;
  cleanup CE (image_paths w).

(** A run from a fresh document, [disk] being the files on disk when the
    cleanup loop runs (the chart files the generators saved included). *)
Definition init_world (disk : list string) : world := mkworld [] None [] [] disk [].

Definition generate_multi_report_pdf (CE : cenv) (E : env) (output_file : string)
    (gs : list generator) (report_date : string) (disk : list string)
  : exc unit * world :=
  generate_multi_report_pdf_m CE E output_file gs report_date (init_world disk).

(** The states of a run, read off the [doc.build] calls. *)
Inductive run_state := Rendered | DegradedRendered | Failed.

Definition state_of (w : world) : run_state :=
  match builds w with
  | [(_, true)] => Rendered
  | [(_, false); (_, true)] => DegradedRendered
  | _ => Failed
  end.

(** What each generator contributes to the stream. *)
Definition contribution (E : env) (report_date : string) (g : generator)
  : list elem :=
  match grun g E report_date with
  | Ok es => es
  | Raise e => error_elements (report_name (gname g)) e
  end.

(** The error placeholder of [g], if it raises, can be built. *)
Definition placeholder_ok (CE : cenv) (E : env) (report_date : string) (g : generator)
  : bool :=
  match grun g E report_date with
  | Ok _ => true
  | Raise e =>
      match para_error CE (placeholder_text (report_name (gname g)) e) with
      | None => true
      | Some _ => false
      end
  end.

(** ** [get_report_date] *)

Definition is_digit (c : ascii) : bool :=
  let n := nat_of_ascii c in (48 <=? n)%nat && (n <=? 57)%nat.
Definition dval (c : ascii) : Z := Z.of_nat (nat_of_ascii c) - 48.

(** The alternatives of the [%m] group [(1[0-2]|0[1-9]|[1-9])] that match
    at the head of [s], in the order the regex tries them: value and rest. *)
Definition month_alts (s : string) : list (Z * string) :=
  (match s with
   | String a (String b r) =>
       if Ascii.eqb a "1" && is_digit b && (dval b <=? 2) then [(10 + dval b, r)] else []
   | _ => [] end) ++
  (match s with
   | String a (String b r) =>
       if Ascii.eqb a "0" && is_digit b && (1 <=? dval b) then [(dval b, r)] else []
   | _ => [] end) ++
  (match s with
   | String a r => if is_digit a && (1 <=? dval a) then [(dval a, r)] else []
   | _ => [] end).

(** The same for [%d]: [(3[01]|[12]\d|0[1-9]|[1-9]| [1-9])]. *)
Definition day_alts (s : string) : list (Z * string) :=
  (match s with
   | String a (String b r) =>
       if Ascii.eqb a "3" && is_digit b && (dval b <=? 1) then [(30 + dval b, r)] else []
   | _ => [] end) ++
  (match s with
   | String a r1 =>
       if Ascii.eqb a "1" || Ascii.eqb a "2" then
         match udigit r1 with Some (b, r) => [(10 * dval a + b, r)] | None => [] end
       else []
   | _ => [] end) ++
  (match s with
   | String a (String b r) =>
       if Ascii.eqb a "0" && is_digit b && (1 <=? dval b) then [(dval b, r)] else []
   | _ => [] end) ++
  (match s with
   | String a r => if is_digit a && (1 <=? dval a) then [(dval a, r)] else []
   | _ => [] end) ++
  (match s with
   | String a (String b r) =>
       if Ascii.eqb a " " && is_digit b && (1 <=? dval b) then [(dval b, r)] else []
   | _ => [] end).

(** First month alternative after which ['-'] and some day alternative
    match: the regex's backtracking; the day is the first day alternative. *)
Fixpoint first_month_day (ms : list (Z * string)) : option (Z * Z * string) :=
  match ms with
  | [] => None
  | (m, String c r) :: ms' =>
      if Ascii.eqb c "-" then
        match day_alts r with
        | (d, rest) :: _ => Some (m, d, rest)
        | [] => first_month_day ms'
        end
      else first_month_day ms'
  | (_, EmptyString) :: ms' => first_month_day ms'
  end.

Definition is_leap (y : Z) : bool :=
  (Z.eqb (y mod 4) 0 && negb (Z.eqb (y mod 100) 0)) || Z.eqb (y mod 400) 0.

Definition days_in_month (y m : Z) : Z :=
  if Z.eqb m 2 then (if is_leap y then 29 else 28)
  else if (Z.eqb m 4 || Z.eqb m 6 || Z.eqb m 9 || Z.eqb m 11) then 30 else 31.

(** [datetime.strptime(s, '%Y-%m-%d')]: [re.match] of the directive
    regex [(?P<Y>\d\d\d\d)-(?P<m>1[0-2]|0[1-9]|[1-9])-(?P<d>3[01]|[12]\d|0[1-9]|[1-9]| [1-9])],
    then "unconverted data remains" unless all of [s] is used, then
    [datetime.date(y, m, d)] (year 1..9999, day within the month).
    [\d] is any Unicode decimal digit, the classes are ASCII. [None]
    stands for the [ValueError]. *)
Definition strptime_ymd (s : string) : option date :=
  match udigit s with
  | None => None
  | Some (y1, s1) =>
  match udigit s1 with
  | None => None
  | Some (y2, s2) =>
  match udigit s2 with
  | None => None
  | Some (y3, s3) =>
  match udigit s3 with
  | Some (y4, String c r) =>
      if Ascii.eqb c "-" then
        let y := 1000 * y1 + 100 * y2 + 10 * y3 + y4 in
        match first_month_day (month_alts r) with
        | Some (m, d, EmptyString) =>
            if (1 <=? y) && (d <=? days_in_month y m) then Some (mkdate y m d) else None
        | _ => None
        end
      else None
  | _ => None
  end end end end.

Definition zfill (w : nat) (n : Z) : string := str_of (zpad w (z_digits n)).

(** [date.isoformat()] *)
Definition isoformat (d : date) : string :=
  zfill 4 (year d) ++ "-" ++ zfill 2 (month d) ++ "-" ++ zfill 2 (day d).

Definition fallback_report_date : string := "2025-03-13".

(** [get_report_date()] on [sys.argv] and the result of
    [SELECT MAX(fecha_imputada) FROM fci_diaria_2] ([None]: NULL). *)
Definition get_report_date (argv : list string) (max_fecha : exc (option date))
  : exc string :=
  let from_db :=
    result <- max_fecha ;;
    Ok (match result with
        | Some d => isoformat d
        | None => fallback_report_date
        end) in
  match argv with
  | _ :: arg :: _ =>
      match strptime_ymd arg with
      | Some d => Ok (isoformat d)
      | None => from_db
      end
  | _ => from_db
  end.

(** ** [main] of each script

    [main] raises when [get_report_date] or [generate_multi_report_pdf]
    does; otherwise the composer's final state is returned with the output
    file name. *)

Module ReportMain.

(** [f"{report_date.replace('-', '')} reporte fci.pdf"] *)
Definition output_file (report_date : string) : string :=
  py_replace report_date "-" "" ++ " reporte fci.pdf".

Definition main (argv : list string) (max_fecha : exc (option date))
    (CE : cenv) (E : env) (disk : list string) : exc (string * world) :=
  report_date <- get_report_date argv max_fecha ;;
  let out := output_file report_date in
  match generate_multi_report_pdf CE E out Report.sub_reports report_date disk with
  | (Ok _, w) => Ok (out, w)
  | (Raise e, _) => Raise e
  end.

End ReportMain.

Module ReportAumMain.

(** [f"multi_report_aum_familia_{datetime.now().strftime('%Y%m%d_%H%M%S')}.pdf"] *)
Definition output_file (timestamp : string) : string :=
  "multi_report_aum_familia_" ++ timestamp ++ ".pdf".

Definition main (argv : list string) (max_fecha : exc (option date))
    (timestamp : string) (CE : cenv) (E : env) (disk : list string)
  : exc (string * world) :=
  report_date <- get_report_date argv max_fecha ;;
  let out := output_file timestamp in
  match generate_multi_report_pdf CE E out ReportAum.sub_reports report_date disk with
  | (Ok _, w) => Ok (out, w)
  | (Raise e, _) => Raise e
  end.

End ReportAumMain.

(** ** [read_procedures_from_file] (identical in both scripts) *)

(** What [open(filename, "r")] and reading it give: the file's bytes, or
    the exception raised on opening or reading. The text is decoded as
    UTF-8 (a UTF-8 locale). *)
Inductive file_read :=
| FileNotFound
| ReadError (msg : string)
| FileText (contents : string).

Definition nl : ascii := "010"%char.
Definition cr : ascii := "013"%char.

(** Universal newlines of text mode: "\r\n" and a lone "\r" read as "\n". *)
Fixpoint translate_newlines (s : string) : string :=
  match s with
  | EmptyString => EmptyString
  | String c r =>
      if Ascii.eqb c cr then
        match r with
        | String c2 r2 =>
            if Ascii.eqb c2 nl then String nl (translate_newlines r2)
            else String nl (translate_newlines r)
        | EmptyString => String nl EmptyString
        end
      else String c (translate_newlines r)
  end.

(** The pieces between the "\n" characters. *)
Fixpoint split_nl (s : string) : list string :=
  match s with
  | EmptyString => [EmptyString]
  | String c r =>
      if Ascii.eqb c nl then EmptyString :: split_nl r
      else match split_nl r with
           | x :: xs => String c x :: xs
           | [] => [String c EmptyString]
           end
  end.

(** [for line in file]: every line keeps its "\n", the last one may lack
    it, and there is no empty last line. *)
Definition file_lines (s : string) : list string :=
  let segs := split_nl (translate_newlines s) in
  (map (fun x => (x ++ String nl EmptyString)%string) (removelast segs) ++
   match last segs EmptyString with EmptyString => [] | x => [x] end)%list.

(** Drop the white-space characters at the head. *)
Fixpoint lstrip_l (l : list ascii) : list ascii :=
  match l with
  | [] => []
  | a :: r =>
      if is_space a then lstrip_l r else
      match r with
      | b :: r1 =>
          if ws2 a b then lstrip_l r1 else
          match r1 with
          | c :: r2 => if ws3 a b c then lstrip_l r2 else l
          | [] => l
          end
      | [] => l
      end
  end.

(** The same on a reversed list: drop the white-space characters at the
    end of the text (a lead byte is the start of its character, so the
    byte patterns read backwards find the same characters). *)
Fixpoint rstrip_rev (l : list ascii) : list ascii :=
  match l with
  | [] => []
  | a :: r =>
      if is_space a then rstrip_rev r else
      match r with
      | b :: r1 =>
          if ws2 b a then rstrip_rev r1 else
          match r1 with
          | c :: r2 => if ws3 c b a then rstrip_rev r2 else l
          | [] => l
          end
      | [] => l
      end
  end.

(** [str.strip()] on a character list. *)
Definition strip_l (l : list ascii) : list ascii := rev (rstrip_rev (rev (lstrip_l l))).

(** [s.strip()] *)
Definition py_strip (s : string) : string := str_of (strip_l (chars s)).

(** [if proc_name and not proc_name.startswith("#")] *)
Definition keep_procedure (proc_name : string) : bool :=
  negb (String.eqb proc_name "") && negb (startswith proc_name "#").

(** [str(e)] of the [UnicodeDecodeError] raised while iterating over a
    file that is not valid UTF-8; the position and byte it also names are
    not modelled. *)
Definition utf8_decode_error : string := "'utf-8' codec can't decode byte".

Inductive proc_result :=
| Procedures (names : list string)
| SysExit (status : Z).

(** The console output and the outcome. *)
Definition read_procedures_from_file (filename : string) (f : file_read)
  : list string * proc_result :=
  match f with
  | FileNotFound =>
      (["Error: El archivo '" ++ filename ++ "' no fue encontrado."], SysExit 1)
  | ReadError e =>
      (["Error leyendo el archivo de procedimientos: " ++ e], SysExit 1)
  | FileText s =>
      if utf8_valid (chars s) then
        ([], Procedures (filter keep_procedure (map py_strip (file_lines s))))
      else
        (["Error leyendo el archivo de procedimientos: " ++ utf8_decode_error], SysExit 1)
  end.

(** ** [execute_procedure] (identical in both scripts) *)

(** [engine.connect()] and [connection.execute(stmt)]: [Some e] when they
    raise. *)
Record engine := mkengine {
  connect_fails : option string;
  execute_fails : string -> option string
}.

(** The statements sent and the console output; [start] and [finish] are
    the two [datetime.now()] readings. The [with engine.connect()] is
    outside the [try]. *)
Definition execute_procedure (start finish : string) (eng : engine)
    (procedure_name : string) : exc (list string * list string) :=
  match connect_fails eng with
  | Some e => Raise e
  | None =>
      let stmt := "CALL " ++ procedure_name ++ "();" in
      let msg1 := "Iniciando ejecución de procedimiento " ++ procedure_name ++
                  " a las " ++ start in
      Ok ([stmt],
          match execute_fails eng stmt with
          | None => [msg1; "El procedimiento " ++ procedure_name ++
                           " se ejecutó exitosamente a las " ++ finish ++ "."]
          | Some e => [msg1; "Error executing procedure " ++ procedure_name ++ ": " ++ e]
          end)
  end.

(** ** Reading a run *)

(** The [doc.build] calls of [build_pdf] on a stream [S]: the retry is
    given the safe elements of what the failed build left. *)
Definition build_attempts (CE : cenv) (S : list elem) : list (list elem * bool) :=
  match build_fails CE S with
  | None => [(S, true)]
  | Some (_, rest) =>
      (S, false) ::
      match filter is_safe rest with
      | [] => []
      | safe => [(safe, match build_fails CE safe with None => true | Some _ => false end)]
      end
  end.

(** What is left in [all_elements] after [build_pdf]. *)
Definition build_residue (CE : cenv) (S : list elem) : list elem :=
  match build_fails CE S with None => [] | Some (_, rest) => rest end.

Definition removable (CE : cenv) (p : string) : bool :=
  match remove_fails CE p with None => true | Some _ => false end.

(** The files the cleanup loop over [ps] leaves on disk. *)
Definition files_after_cleanup (CE : cenv) (ps : list string) (disk : list string)
  : list string :=
  filter (fun f => negb (existsb (fun p => String.eqb p f && removable CE p) ps)) disk.

(** The as-of date one generator's output would set: the first
    Paragraph whose [.text] has a matching marker. *)
Fixpoint first_marker (CE : cenv) (es : list elem) : option string :=
  match es with
  | [] => None
  | Paragraph t _ :: rest =>
      if str_contains (para_text CE t) "Fecha:" then
        match fecha_search (para_text CE t) with
        | Some v => Some v
        | None => first_marker CE rest
        end
      else first_marker CE rest
  | _ :: rest => first_marker CE rest
  end.

(** The Images the scan of one output records for cleanup: the top-level
    Images met before the first date marker. *)
Fixpoint scanned_images (CE : cenv) (es : list elem) : list string :=
  match es with
  | [] => []
  | Paragraph t _ :: rest =>
      if str_contains (para_text CE t) "Fecha:" then
        match fecha_search (para_text CE t) with
        | Some _ => []
        | None => scanned_images CE rest
        end
      else scanned_images CE rest
  | Image f _ _ :: rest => f :: scanned_images CE rest
  | _ :: rest => scanned_images CE rest
  end.

(** [s.replace(c, new)] for a one-character [c], character by character. *)
Fixpoint replace_char (c : ascii) (new s : string) : string :=
  match s with
  | EmptyString => EmptyString
  | String x r => (if Ascii.eqb c x then new else String x EmptyString) ++ replace_char c new r
  end.

Definition marker_of (CE : cenv) (E : env) (report_date : string) (g : generator)
  : option string :=
  match grun g E report_date with
  | Ok es => first_marker CE es
  | Raise _ => None
  end.

(** One write of the outer loop: a generator with a marker overwrites. *)
Definition fecha_step (CE : cenv) (E : env) (report_date : string)
    (acc : option string) (g : generator) : option string :=
  match marker_of CE E report_date g with Some v => Some v | None => acc end.

(** The generators of both scripts that query the database. *)
Definition query_generators : list generator :=
  [mkgen "sub_report_summary" Report.sub_report_summary;
   mkgen "sub_report_efec_categoria" Report.sub_report_efec_categoria;
   mkgen "sub_report_efec_subcategoria" Report.sub_report_efec_subcategoria;
   mkgen "sub_report_efec_gerente" Report.sub_report_efec_gerente;
   mkgen "sub_report_rentabilidades" Report.sub_report_rentabilidades;
   mkgen "sub_report_fondos_sin_clasificar" Report.sub_report_fondos_sin_clasificar;
   mkgen "sub_report_efec_subcategoria" ReportAum.sub_report_efec_subcategoria;
   mkgen "sub_report_efec_categoria" ReportAum.sub_report_efec_categoria;
   mkgen "sub_report_summary" ReportAum.sub_report_summary].

(** ** Predicates of the further properties *)

(** Characters kept by [.replace(",", "")]. *)
Definition not_comma (x : ascii) : bool := negb (Ascii.eqb "," x).

(** The image paths the composer collects from one generator's output. *)
Definition output_images (CE : cenv) (E : env) (report_date : string) (g : generator)
  : list string :=
  match grun g E report_date with Ok es => scanned_images CE es | Raise _ => [] end.

(** A procedure name as [read_procedures_from_file] returns it: non-empty,
    not starting with '#', no surrounding white space, and on one line. *)
Definition clean_name (n : string) : bool :=
  match n with
  | EmptyString => false
  | String c _ =>
      negb (Ascii.eqb c "#") && negb (is_space c) && negb (is_space (last (chars n) c))
      && forallb (fun x => negb (Ascii.eqb x nl || Ascii.eqb x cr)) (chars n)
  end.

(** A white-space character ends the text whose reversal is [l]. *)
Definition ws_at_rev (l : list ascii) : bool :=
  match l with
  | a :: b :: c :: _ => is_space a || ws2 b a || ws3 c b a
  | [a; b] => is_space a || ws2 b a
  | [a] => is_space a
  | [] => false
  end.

(** The byte length of the white-space character [lstrip_l] drops at the
    head of [l] (0 when there is none): the test order of [lstrip_l]. *)
Definition ws_len (l : list ascii) : nat :=
  match l with
  | a :: r =>
      if is_space a then 1 else
      match r with
      | b :: r1 =>
          if ws2 a b then 2 else
          match r1 with c :: _ => if ws3 a b c then 3 else 0 | [] => 0 end
      | [] => 0
      end
  | [] => 0
  end.

(** The same for [rstrip_rev] on a reversed text. *)
Definition ws_len_rev (l : list ascii) : nat :=
  match l with
  | a :: r =>
      if is_space a then 1 else
      match r with
      | b :: r1 =>
          if ws2 b a then 2 else
          match r1 with c :: _ => if ws3 c b a then 3 else 0 | [] => 0 end
      | [] => 0
      end
  | [] => 0
  end.

(** A procedure name that reads back unchanged: [clean_name], valid UTF-8,
    and no Unicode white space at either end. *)
Definition clean_name_u (n : string) : bool :=
  clean_name n && utf8_valid (chars n)
  && negb (ws_at (chars n)) && negb (ws_at_rev (rev (chars n))).

(** A flowable list whose only [PageBreak] is its last element. *)
Definition ends_with_page_break (es : list elem) : Prop :=
  exists pre, es = (pre ++ [PageBreak])%list /\ ~ In PageBreak pre.

Definition is_page_break (e : elem) : bool :=
  match e with PageBreak => true | _ => false end.

(** ** Concrete inputs *)

Definition sample_date : date := mkdate 2025 3 13.

(** A database with no rows for any query; charts always succeed. *)
Definition env_no_rows : env :=
  mkenv (fun _ _ => Ok []) (fun _ => None) (fun _ _ => true) "/tmp".

(** One row for every query; the plotting of the chart saved at
    [failing_chart] raises [err]. *)
Definition env_one_row (failing_chart err : string) : env :=
  mkenv (fun _ _ => Ok [[VDate sample_date; VNum 5 1]])
        (fun p => if String.eqb p failing_chart then Some err else None)
        (fun _ _ => true) "/tmp".

(** The chart file shows up on disk 150 ms after [savefig] returns. *)
Definition env_late_file : env :=
  mkenv (fun _ _ => Ok [[VDate sample_date; VNum 5 1]]) (fun _ => None)
        (fun _ t => 150 <=? t) "/tmp".

(** The words of [l]: its maximal runs without (ASCII) white space. *)
Fixpoint words_aux (cur : list ascii) (l : list ascii) : list (list ascii) :=
  match l with
  | [] => match cur with [] => [] | _ => [rev cur] end
  | c :: r =>
      if is_space c
      then match cur with [] => words_aux [] r | _ => rev cur :: words_aux [] r end
      else words_aux (c :: cur) r
  end.

(** [cleanBlockQuotedText] on a text whose only white space is ASCII: its
    words joined by one space. *)
Definition clean_block_ascii (t : string) : string :=
  join_sep " " (map str_of (words_aux [] (chars t))).

(** Every build and removal succeeds; the texts below carry no markup. *)
Definition cenv_ok : cenv :=
  mkcenv (fun _ => None) (fun _ => None) clean_block_ascii (fun _ => None).





Definition gen_raising : generator :=
  mkgen "sub_report_broken" (fun _ _ => Raise "connection refused").

Definition gen_dated (name v : string) : generator :=
  mkgen name (fun _ _ => Ok [Paragraph ("Fecha: " ++ v) "Normal"; PageBreak]).




(** Every query answers one row of twelve numbers; charts always succeed. *)
Definition env_wide_rows : env :=
  mkenv (fun _ _ => Ok [repeat (VNum 5 1) 12]) (fun _ => None) (fun _ _ => true) "/tmp".

(** ** Examples *)

Example fmt_thousands_ex1 : fmt_thousands 2 (VNum (-123456789) 1) = Ok "-123.456.789.00".
Proof. reflexivity. Qed.

Example report_name_ex : report_name "sub_report_efec_gerente" = "Efec Gerente".
Proof. reflexivity. Qed.

Example fecha_search_ex : fecha_search "Fecha:  Fecha: 2024-01-02 x" = Some "2024-01-02".
Proof. reflexivity. Qed.

Example strptime_ex : strptime_ymd "2024-1-5" = Some (mkdate 2024 1 5)
  /\ strptime_ymd "2023-02-29" = None /\ strptime_ymd "2024-01-32" = None.
Proof. repeat split; reflexivity. Qed.

(** The full-width digits U+FF12, U+FF10, U+FF12, U+FF14 (bytes EF BC 92,
    EF BC 90, EF BC 92, EF BC 94): [\d] accepts them in the year, the
    ASCII class of [%m] does not accept them in the month. *)
Definition fullwidth_2024 : string :=
  String "239" (String "188" (String "146"
  (String "239" (String "188" (String "144"
  (String "239" (String "188" (String "146"
  (String "239" (String "188" (String "148" EmptyString))))))))))).

Example strptime_unicode_ex :
  strptime_ymd (fullwidth_2024 ++ "-03-13") = Some (mkdate 2024 3 13)
  /\ strptime_ymd ("2024-" ++ String "239" (String "188" (String "147" EmptyString)) ++ "-13")
     = None.
Proof. split; vm_compute; reflexivity. Qed.

(** [f"{float(Decimal('2.675')):,.2f}"] is "2.67": the nearest double is
    below 2.675. *)
Example pyfloat_format_ex : pyfloat_format true 2 (to_binary64 false 2675 1000) = "2.67".
Proof. vm_compute. reflexivity. Qed.

(** ** Composer lemmas *)

Section Composer.
Variable CE : cenv.
Variable E : env.
Variable report_date : string.

Lemma scan_elements_ok (name : string) (es : list elem) (w : world) :
  exists w', scan_elements CE name es w = (Ok tt, w')
    /\ all_elements w' = all_elements w /\ builds w' = builds w
    /\ files w' = files w.
Proof.
  revert w; induction es as [|e es IH]; intro w; simpl.
  - exists w; auto.
  - destruct e; simpl; try apply IH.
    + destruct (str_contains (para_text CE text) "Fecha:"); [|apply IH].
      destruct (fecha_search (para_text CE text)) as [v|]; [|apply IH].
      cbn. eexists; repeat split; reflexivity.
    + cbn. destruct (IH (set_image_paths (image_paths w ++ [filename]) w))
        as (w' & H1 & H2 & H3 & H4).
      exists w'; rewrite H1; auto.
Qed.

Lemma run_sub_report_ok (g : generator) (w : world)
    (Hg : placeholder_ok CE E report_date g = true) :
  exists w', run_sub_report CE E report_date g w = (Ok tt, w')
    /\ all_elements w' = (all_elements w ++ contribution E report_date g)%list
    /\ builds w' = builds w /\ files w' = files w.
Proof.
  unfold placeholder_ok in Hg; unfold run_sub_report, contribution.
  revert Hg; generalize (report_name (gname g)) as name; intros name Hg.
  destruct (grun g E report_date) as [es|e];
    unfold m_catch, m_bind, m_lift, print, modify, m_ret; cbn [fst snd].
  - destruct es as [|e0 es].
    + eexists; repeat split; cbn; [rewrite app_nil_r|..]; reflexivity.
    + match goal with |- context [scan_elements CE ?n ?l ?w0] =>
        destruct (scan_elements_ok n l w0) as (w' & H1 & H2 & H3 & H4) end.
      rewrite H1. exists w'; repeat split; [rewrite H2|rewrite H3|rewrite H4]; reflexivity.
  - destruct (para_error CE (placeholder_text name e)); [discriminate|].
    eexists; repeat split; reflexivity.
Qed.


Lemma run_sub_reports_ok (gs : list generator) (w : world)
    (Hok : forall g, In g gs -> placeholder_ok CE E report_date g = true) :
  exists w', run_sub_reports CE E report_date gs w = (Ok tt, w')
    /\ all_elements w' = (all_elements w ++ flat_map (contribution E report_date) gs)%list
    /\ builds w' = builds w /\ files w' = files w.
Proof.
  revert w; induction gs as [|g gs IH]; intro w; simpl.
  - exists w; rewrite app_nil_r; auto.
  - destruct (run_sub_report_ok g w (Hok g (or_introl eq_refl)))
      as (w1 & H1 & H2 & H3 & H4).
    unfold m_bind at 1; rewrite H1.
    destruct (IH (fun g' H => Hok g' (or_intror H)) w1) as (w2 & H5 & H6 & H7 & H8).
    exists w2; rewrite H5, H6, H2, <- app_assoc; repeat split; congruence.
Qed.


Lemma build_pdf_ok (output_file : string) (w : world) :
  exists w', build_pdf CE output_file w = (Ok tt, w')
    /\ all_elements w' = build_residue CE (all_elements w)
    /\ builds w' = (builds w ++ build_attempts CE (all_elements w))%list
    /\ files w' = files w /\ image_paths w' = image_paths w
    /\ fecha_value w' = fecha_value w.
Proof.
  unfold build_pdf, build_attempts, build_residue, m_get, m_bind, m_catch, doc_build,
    print, modify.
  destruct (build_fails CE (all_elements w)) as [[e rest]|]; cbn.
  - destruct (filter is_safe rest) as [|x xs]; cbn.
    + eexists; repeat split; reflexivity.
    + destruct (build_fails CE (x :: xs)) as [[e2 rest2]|]; cbn;
        eexists; repeat split; cbn; rewrite <- ?app_assoc; reflexivity.
  - eexists; repeat split; reflexivity.
Qed.

Lemma filter_filter_and {A} (f g : A -> bool) (l : list A) :
  filter f (filter g l) = filter (fun x => g x && f x) l.
Proof.
  induction l as [|x l IH]; simpl; [reflexivity|].
  destruct (g x); simpl; [destruct (f x); simpl|]; rewrite IH; reflexivity.
Qed.

Lemma cleanup_ok (ps : list string) (w : world) :
  exists w', cleanup CE ps w = (Ok tt, w')
    /\ all_elements w' = all_elements w /\ builds w' = builds w
    /\ fecha_value w' = fecha_value w /\ image_paths w' = image_paths w
    /\ files w' = files_after_cleanup CE ps (files w).
Proof.
  unfold files_after_cleanup.
  revert w; induction ps as [|p ps IH]; intro w; simpl.
  - exists w; repeat split; simpl. symmetry; apply filter_true.
  - unfold m_bind at 1, m_get.
    destruct (existsb (String.eqb p) (files w)) eqn:Hin.
    + unfold m_catch, m_bind, os_remove, print, modify.
      destruct (remove_fails CE p) eqn:Hr; cbn.
      * match goal with |- context [cleanup CE ps ?w1] =>
          destruct (IH w1) as (w' & H1 & H2 & H3 & H4 & H5 & H6) end.
        exists w'; rewrite H1; repeat split; try assumption.
        rewrite H6; cbn. apply filter_ext; intro f.
        unfold removable; rewrite Hr, andb_false_r; reflexivity.
      * match goal with |- context [cleanup CE ps ?w1] =>
          destruct (IH w1) as (w' & H1 & H2 & H3 & H4 & H5 & H6) end.
        exists w'; rewrite H1; repeat split; try assumption.
        rewrite H6; cbn. rewrite filter_filter_and. apply filter_ext; intro f.
        unfold removable; rewrite Hr, andb_true_r, (String.eqb_sym f p).
        destruct (String.eqb p f); reflexivity.
    + unfold m_ret; cbn.
      destruct (IH w) as (w' & H1 & H2 & H3 & H4 & H5 & H6).
      exists w'; rewrite H1; repeat split; try assumption.
      rewrite H6. apply filter_ext_in; intros f Hf.
      destruct (String.eqb p f) eqn:Hpf; [|reflexivity].
      exfalso. assert (existsb (String.eqb p) (files w) = true) as Hc
        by (apply existsb_exists; exists f; auto).
      congruence.
Qed.

(** The whole run, stage by stage, when no error placeholder raises. *)
Lemma generate_spec (output_file : string) (gs : list generator) (disk : list string)
    (Hok : forall g, In g gs -> placeholder_ok CE E report_date g = true) :
  exists w1 w,
    run_sub_reports CE E report_date gs (init_world disk) = (Ok tt, w1)
    /\ all_elements w1 = flat_map (contribution E report_date) gs
    /\ files w1 = disk
    /\ generate_multi_report_pdf CE E output_file gs report_date disk = (Ok tt, w)
    /\ all_elements w = build_residue CE (all_elements w1)
    /\ builds w = build_attempts CE (all_elements w1)
    /\ fecha_value w = fecha_value w1
    /\ image_paths w = image_paths w1
    /\ files w = files_after_cleanup CE (image_paths w1) disk.
Proof.
  destruct (run_sub_reports_ok gs (init_world disk) Hok) as (w1 & H1 & H2 & H3 & H4).
  destruct (build_pdf_ok output_file w1) as (w2 & B1 & B2 & B3 & B4 & B5 & B6).
  destruct (cleanup_ok (image_paths w2) w2) as (w3 & C1 & C2 & C3 & C4 & C5 & C6).
  exists w1, w3.
  unfold generate_multi_report_pdf, generate_multi_report_pdf_m.
  unfold m_bind at 1; rewrite H1.
  unfold m_bind at 1; rewrite B1.
  unfold m_bind, m_get; rewrite C1.
  cbn in H2, H3, H4.
  repeat split.
  - exact H2.
  - exact H4.
  - congruence.
  - rewrite C3, B3, H3; reflexivity.
  - congruence.
  - congruence.
  - rewrite C6, B4, B5, H4; reflexivity.
Qed.


Lemma scan_elements_fecha (name : string) (es : list elem) (w : world) :
  fecha_value (snd (scan_elements CE name es w)) =
  match first_marker CE es with Some v => Some v | None => fecha_value w end.
Proof.
  revert w; induction es as [|e es IH]; intro w; simpl; [reflexivity|].
  destruct e; simpl; try apply IH.
  - destruct (str_contains (para_text CE text) "Fecha:"); [|apply IH].
    destruct (fecha_search (para_text CE text)) as [v|]; [reflexivity|apply IH].
  - cbn. destruct (scan_elements CE name es _) as [r w'] eqn:Hs.
    specialize (IH (set_image_paths (image_paths w ++ [filename]) w)).
    rewrite Hs in IH; exact IH.
Qed.

Lemma scan_elements_images (name : string) (es : list elem) (w : world) :
  image_paths (snd (scan_elements CE name es w)) = (image_paths w ++ scanned_images CE es)%list.
Proof.
  revert w; induction es as [|e es IH]; intro w; simpl; [rewrite app_nil_r; reflexivity|].
  destruct e; simpl; try apply IH.
  - destruct (str_contains (para_text CE text) "Fecha:"); [|apply IH].
    destruct (fecha_search (para_text CE text)) as [v|]; [cbn; rewrite app_nil_r; reflexivity|apply IH].
  - cbn. destruct (scan_elements CE name es _) as [r w'] eqn:Hs.
    specialize (IH (set_image_paths (image_paths w ++ [filename]) w)).
    rewrite Hs in IH; cbn in IH |- *. rewrite IH, <- app_assoc; reflexivity.
Qed.

(** The fields one iteration of the outer loop sets, when its placeholder
    (if any) is built. *)
Lemma run_sub_report_fields (g : generator) (w : world)
    (Hg : placeholder_ok CE E report_date g = true) :
  fecha_value (snd (run_sub_report CE E report_date g w))
    = fecha_step CE E report_date (fecha_value w) g
  /\ image_paths (snd (run_sub_report CE E report_date g w))
    = (image_paths w ++ output_images CE E report_date g)%list.
Proof.
  unfold placeholder_ok in Hg; unfold run_sub_report, fecha_step, marker_of, output_images.
  revert Hg; generalize (report_name (gname g)) as name; intros name Hg.
  destruct (grun g E report_date) as [es|e];
    unfold m_catch, m_bind, m_lift, print, modify, m_ret; cbn [fst snd].
  - destruct es as [|e0 es]; [cbn; rewrite app_nil_r; split; reflexivity|].
    match goal with |- context [scan_elements CE ?n ?l ?w0] =>
      pose proof (scan_elements_fecha n l w0) as Hf;
      pose proof (scan_elements_images n l w0) as Hi;
      destruct (scan_elements_ok n l w0) as (w2 & Hs & _) end.
    rewrite Hs in Hf, Hi |- *. cbn [fst snd] in Hf, Hi |- *. split; [exact Hf|exact Hi].
  - destruct (para_error CE (placeholder_text name e)); [discriminate|].
    cbn; rewrite app_nil_r; split; reflexivity.
Qed.


Lemma run_sub_reports_images (gs : list generator) (w : world)
    (Hok : forall g, In g gs -> placeholder_ok CE E report_date g = true) :
  image_paths (snd (run_sub_reports CE E report_date gs w))
  = (image_paths w ++ flat_map (output_images CE E report_date) gs)%list.
Proof.
  revert w; induction gs as [|g gs IH]; intro w; simpl; [rewrite app_nil_r; reflexivity|].
  pose proof (Hok g (or_introl eq_refl)) as Hg.
  destruct (run_sub_report_ok g w Hg) as (w1 & H1 & _).
  destruct (run_sub_report_fields g w Hg) as [_ Hi].
  rewrite H1 in Hi; cbn in Hi.
  unfold m_bind at 1; rewrite H1, IH by (intros g' H; apply Hok; right; exact H).
  rewrite Hi, app_assoc; reflexivity.
Qed.


End Composer.

(** ** The claims *)

Lemma forallb_app_cons {A} (f : A -> bool) (pre post : list A) (x : A) :
  forallb f (pre ++ x :: post) = true ->
  forallb f pre = true /\ f x = true /\ forallb f post = true.
Proof.
  rewrite forallb_app; cbn [forallb]; intros H.
  apply andb_true_iff in H as [H1 H2]; apply andb_true_iff in H2 as [H2 H3]; auto.
Qed.

Lemma forallb_in {A} (f : A -> bool) (l : list A) :
  forallb f l = true -> forall x, In x l -> f x = true.
Proof. rewrite forallb_forall; auto. Qed.




(** C9: in a run where no error placeholder raises, the stream the
    composer accumulates, which it hands to the first [doc.build], is the
    concatenation, in configured order, of each generator's output (its
    error placeholder when it raised): nothing is reordered. *)
Theorem composer_concatenates_in_order (E : env) (report_date : string)
    (CE : cenv) (output_file : string) (gs : list generator) (disk : list string)
    (Hok : forallb (placeholder_ok CE E report_date) gs = true) :
  all_elements (snd (run_sub_reports CE E report_date gs (init_world disk)))
    = flat_map (contribution E report_date) gs
  /\ exists ok, hd_error (builds (snd (generate_multi_report_pdf CE E output_file gs
                                        report_date disk)))
       = Some (flat_map (contribution E report_date) gs, ok).
Proof.
  destruct (generate_spec CE E report_date output_file gs disk (forallb_in _ _ Hok))
    as (w1 & w & H1 & H2 & _ & H4 & _ & H6 & _ & _ & _).
  rewrite H1; split; [exact H2|].
  rewrite H4; simpl; rewrite H6, H2; unfold build_attempts.
  destruct (build_fails CE _) as [[e rest]|]; eexists; reflexivity.
Qed.

Lemma composer_concatenates_in_order_witness :
  all_elements (snd (run_sub_reports cenv_ok env_no_rows "2025-03-13"
                       [gen_dated "sub_report_a" "2025-03-13"; gen_raising] (init_world [])))
    = [Paragraph "Fecha: 2025-03-13" "Normal"; PageBreak;
       Paragraph "Error in Broken: connection refused" "Normal"; PageBreak]
  /\ exists ok, hd_error (builds (snd (generate_multi_report_pdf cenv_ok env_no_rows
                  "20250313 reporte fci.pdf" [gen_dated "sub_report_a" "2025-03-13"; gen_raising]
                  "2025-03-13" [])))
       = Some ([Paragraph "Fecha: 2025-03-13" "Normal"; PageBreak;
                Paragraph "Error in Broken: connection refused" "Normal"; PageBreak], ok).
Proof.
  exact (composer_concatenates_in_order env_no_rows "2025-03-13" cenv_ok
           "20250313 reporte fci.pdf" [gen_dated "sub_report_a" "2025-03-13"; gen_raising] []
           eq_refl).
Defined.







(** ** Formatting *)

Lemma substring_0_full (s : string) (n : nat) :
  (String.length s <= n)%nat -> substring 0 n s = s.
Proof.
  revert n; induction s as [|c s IH]; intros n Hn; destruct n; simpl in *;
    try reflexivity; try lia.
  f_equal; apply IH; lia.
Qed.

Lemma replace_comma_no_comma (fuel : nat) (s : string) :
  (String.length s <= fuel)%nat ->
  ~ In ","%char (chars (replace_aux fuel "," "." s)).
Proof.
  revert s; induction fuel as [|fuel IH]; intros s Hs.
  - destruct s; simpl in *; [tauto|lia].
  - destruct s as [|c s]; [simpl; tauto|].
    cbn [replace_aux startswith].
    replace (startswith s "") with true by (destruct s; reflexivity).
    rewrite andb_true_r.
    destruct (Ascii.eqb "," c) eqn:Hc.
    + cbn [String.length substring append chars In].
      rewrite substring_0_full by lia.
      intros [H|H]; [discriminate|].
      apply (IH s); [simpl in Hs; lia|exact H].
    + cbn [chars In]. intros [H|H].
      * subst c; rewrite Ascii.eqb_refl in Hc; discriminate.
      * apply (IH s); [simpl in Hs; lia|exact H].
Qed.

(** C2 (amended): the cells are ["{:,.Nf}".format(v).replace(",", ".")]:
    Python groups with ',' and every ',' becomes '.', while the decimal
    point stays '.'; rounding is half to even. So 1234.5 gives "1.234.50"
    with two decimals and "1.234" with none, and no formatted cell holds
    a ','. *)
Theorem fmt_thousands_dots :
  fmt_thousands 2 (VNum 2469 2) = Ok "1.234.50"
  /\ fmt_thousands 0 (VNum 2469 2) = Ok "1.234"
  /\ (forall prec v s, fmt_thousands prec v = Ok s -> ~ In ","%char (chars s)).
Proof.
  split; [reflexivity|]. split; [reflexivity|].
  intros prec v s H.
  unfold fmt_thousands in H.
  destruct (py_format true prec v) as [t|e]; simpl in H; [|discriminate].
  injection H as <-.
  unfold py_replace; apply replace_comma_no_comma; lia.
Qed.

Lemma fmt_thousands_dots_witness :
  ~ In ","%char (chars "1.234.50").
Proof.
  apply (proj2 (proj2 fmt_thousands_dots) 2%nat (VNum 2469 2)).
  reflexivity.
Defined.

(** C2 counterexample: 1234.5 renders neither "1.234,50" nor "1.235". *)
Lemma fmt_thousands_not_swapped :
  fmt_thousands 2 (VNum 2469 2) <> Ok "1.234,50"
  /\ fmt_thousands 0 (VNum 2469 2) <> Ok "1.235".
Proof. split; vm_compute; discriminate. Qed.

(** ** Generators *)

(** C3 (amended): every generator that queries the database returns,
    when all its queries return no rows, the two elements
    [Paragraph(<no data notice>), PageBreak], and does not raise. *)
Theorem no_rows_gives_placeholder (g : generator) (Hg : In g query_generators)
    (E : env) (report_date : string)
    (Hdb : forall q params, db E q params = Ok []) :
  exists msg, grun g E report_date = Ok [Paragraph msg "Normal"; PageBreak].
Proof.
  simpl in Hg.
  repeat (destruct Hg as [<-|Hg]); [..|destruct Hg]; cbn [grun];
    unfold Report.sub_report_summary, Report.sub_report_efec_categoria,
      Report.sub_report_efec_subcategoria, Report.sub_report_efec_gerente,
      Report.sub_report_rentabilidades, Report.sub_report_fondos_sin_clasificar,
      ReportAum.sub_report_efec_subcategoria, ReportAum.sub_report_efec_categoria,
      ReportAum.sub_report_summary, sub_report_efec;
    rewrite ?Hdb; eexists; reflexivity.
Qed.

Lemma no_rows_gives_placeholder_witness :
  exists msg, Report.sub_report_efec_gerente env_no_rows "2025-03-13"
              = Ok [Paragraph msg "Normal"; PageBreak].
Proof.
  exact (no_rows_gives_placeholder
           (mkgen "sub_report_efec_gerente" Report.sub_report_efec_gerente)
           ltac:(simpl; tauto)
           env_no_rows "2025-03-13" (fun _ _ => eq_refl)).
Defined.

(** C3 counterexample: with no rows [sub_report_efec_gerente] returns two
    elements, not one. *)
Lemma no_rows_two_elements :
  Report.sub_report_efec_gerente env_no_rows "2025-03-13"
  = Ok [Paragraph "No data available for Efectos Gerente report." "Normal"; PageBreak].
Proof. reflexivity. Qed.

(** C6: in report.py's [sub_report_summary], when the AUM chart was saved
    and the subscriptions chart raises, the [except] returns early: the
    saved AUM chart is dropped from the output (the [elif aum_chart_path]
    branch that would show it alone is not reached). *)
Theorem summary_sub_chart_failure_drops_aum_chart :
  Report.sub_report_summary (env_one_row "/tmp/sub_chart.png" "savefig failed") "2025-03-13"
  = Ok [Spacer 1 10; Spacer 1 10;
        Paragraph "Subscriptions chart failed: savefig failed" "Normal"; PageBreak].
Proof. vm_compute. reflexivity. Qed.

(** C7: report.py's [sub_report_summary] puts both chart Images inside a
    side-by-side Table; the composer only records top-level Images, so a
    Rendered run, whose one build received the Table, leaves both scratch
    files on disk. *)
Theorem summary_charts_not_cleaned_up :
  let r := generate_multi_report_pdf cenv_ok (env_one_row "" "") "20250313 reporte fci.pdf"
             [mkgen "sub_report_summary" Report.sub_report_summary] "2025-03-13"
             ["/tmp/aum_chart.png"; "/tmp/sub_chart.png"] in
  state_of (snd r) = Rendered
  /\ builds (snd r)
     = [([Spacer 1 10; Spacer 1 10;
          Table [[CImg "/tmp/aum_chart.png"; CImg "/tmp/sub_chart.png"]] [250; 250];
          PageBreak], true)]
  /\ image_paths (snd r) = []
  /\ files (snd r) = ["/tmp/aum_chart.png"; "/tmp/sub_chart.png"].
Proof. vm_compute. repeat split; reflexivity. Qed.

(** ** Report date *)

(** C8: the argument if it parses as [%Y-%m-%d], else the latest date of
    the database, else the hard-coded 2025-03-13. *)
Theorem get_report_date_fallback (argv : list string)
    (max_fecha : exc (option date)) :
  (forall arg d, nth_error argv 1 = Some arg -> strptime_ymd arg = Some d ->
     get_report_date argv max_fecha = Ok (isoformat d))
  /\ ((nth_error argv 1 = None
       \/ exists arg, nth_error argv 1 = Some arg /\ strptime_ymd arg = None) ->
      (forall d, max_fecha = Ok (Some d) -> get_report_date argv max_fecha = Ok (isoformat d))
      /\ (max_fecha = Ok None -> get_report_date argv max_fecha = Ok fallback_report_date)).
Proof.
  unfold get_report_date.
  destruct argv as [|a0 [|arg rest]]; simpl.
  - split; [intros ? ? H; discriminate|].
    intros _; split; [intros d ->|intros ->]; reflexivity.
  - split; [intros ? ? H; discriminate|].
    intros _; split; [intros d ->|intros ->]; reflexivity.
  - split.
    + intros arg' d H Hp; injection H as <-; rewrite Hp; reflexivity.
    + intros [H|(arg' & H & Hp)]; [discriminate|].
      injection H as <-; rewrite Hp.
      split; [intros d ->|intros ->]; reflexivity.
Qed.

Lemma get_report_date_fallback_witness :
  get_report_date ["report.py"; "2024-1-5"] (Ok None) = Ok "2024-01-05"
  /\ get_report_date ["report.py"; "05/01/2024"] (Ok (Some sample_date)) = Ok "2025-03-13"
  /\ get_report_date ["report.py"] (Ok None) = Ok fallback_report_date.
Proof.
  split; [|split].
  - exact (proj1 (get_report_date_fallback ["report.py"; "2024-1-5"] (Ok None))
             "2024-1-5" (mkdate 2024 1 5) eq_refl eq_refl).
  - exact (proj1 (proj2 (get_report_date_fallback ["report.py"; "05/01/2024"]
                          (Ok (Some sample_date)))
                   (or_intror (ex_intro _ "05/01/2024" (conj eq_refl eq_refl))))
             sample_date eq_refl).
  - apply (proj2 (proj2 (get_report_date_fallback ["report.py"] (Ok None))
                          (or_introl eq_refl))).
    reflexivity.
Defined.

(** ** Chart file check *)

(** C10 (amended): after [savefig] the code sleeps 100 ms and probes the
    file once; the chart block raises exactly when the file is not there
    at that single probe. *)
Theorem chart_check_single_probe (E : env) (path msg : string)
    (Hplot : plot E path = None) :
  fst (verify_chart_file (visible E path) (msg ++ path)) = [chart_sleep_ms]
  /\ (render_chart E path msg = Ok tt <-> visible E path chart_sleep_ms = true)
  /\ (render_chart E path msg = Raise (msg ++ path) <-> visible E path chart_sleep_ms = false).
Proof.
  unfold render_chart, verify_chart_file; rewrite Hplot; simpl.
  split; [reflexivity|].
  destruct (visible E path chart_sleep_ms); split; split; intro H;
    try reflexivity; discriminate.
Qed.

Lemma chart_check_single_probe_witness :
  fst (verify_chart_file (visible env_late_file "/tmp/temp_chart.png")
         ("Chart file not created: " ++ "/tmp/temp_chart.png")) = [chart_sleep_ms]
  /\ (render_chart env_late_file "/tmp/temp_chart.png" "Chart file not created: " = Ok tt
      <-> visible env_late_file "/tmp/temp_chart.png" chart_sleep_ms = true)
  /\ (render_chart env_late_file "/tmp/temp_chart.png" "Chart file not created: "
        = Raise ("Chart file not created: " ++ "/tmp/temp_chart.png")
      <-> visible env_late_file "/tmp/temp_chart.png" chart_sleep_ms = false).
Proof. apply chart_check_single_probe. reflexivity. Defined.

(** C10 counterexample: a file that becomes visible 150 ms after
    [savefig] is probed once, at 100 ms, and reported missing; nothing
    polls again. *)
Lemma chart_check_no_polling :
  fst (verify_chart_file (visible env_late_file "/tmp/temp_chart.png")
         "Chart file not created: /tmp/temp_chart.png") = [100]
  /\ render_chart env_late_file "/tmp/temp_chart.png" "Chart file not created: "
     = Raise "Chart file not created: /tmp/temp_chart.png"
  /\ visible env_late_file "/tmp/temp_chart.png" 150 = true.
Proof. repeat split; reflexivity. Qed.

(** ** Further properties of the code *)

(** X1. The rounding behind every [format(v, ",.Nf")] cell: the rounded
    quotient [m] of [n / d] is at most half a unit away from it, and on an
    exact tie it is even (round half to even). *)
Theorem round_half_even_bounds (n : Z) (d : positive) :
  let m := round_half_even n d in
  Z.abs (2 * (n - m * Z.pos d)) <= Z.pos d
  /\ (Z.abs (2 * (n - m * Z.pos d)) = Z.pos d -> Z.even m = true).
Proof.
  unfold round_half_even.
  pose proof (Z.div_mod n (Z.pos d) ltac:(lia)) as Hdm.
  pose proof (Z.mod_pos_bound n (Z.pos d) ltac:(lia)) as Hr.
  set (q := n / Z.pos d) in *; set (r := n mod Z.pos d) in *.
  destruct (Z.compare_spec (2 * r) (Z.pos d)) as [H|H|H]; cbn zeta.
  - destruct (Z.even q) eqn:He.
    + split; [|intros _; exact He].
      replace (n - q * Z.pos d) with r by lia. rewrite Z.abs_eq; lia.
    + split; [|intros _; rewrite Z.even_add, He; reflexivity].
      replace (n - (q + 1) * Z.pos d) with (r - Z.pos d) by lia.
      rewrite Z.abs_neq; lia.
  - replace (n - q * Z.pos d) with r by lia. rewrite Z.abs_eq by lia. lia.
  - replace (n - (q + 1) * Z.pos d) with (r - Z.pos d) by lia.
    rewrite Z.abs_neq by lia. lia.
Qed.

Lemma chars_str_of (l : list ascii) : chars (str_of l) = l.
Proof. induction l as [|c l IH]; simpl; congruence. Qed.

Lemma chars_app (a b : string) : chars (a ++ b) = (chars a ++ chars b)%list.
Proof. induction a as [|c a IH]; simpl; congruence. Qed.

Lemma str_of_app (a b : list ascii) : str_of (a ++ b) = str_of a ++ str_of b.
Proof. induction a as [|c a IH]; simpl; congruence. Qed.

Lemma replace_aux_char (fuel : nat) (c : ascii) (new s : string) :
  (String.length s <= fuel)%nat ->
  replace_aux fuel (String c EmptyString) new s = replace_char c new s.
Proof.
  revert s; induction fuel as [|fuel IH]; intros s Hs.
  - destruct s; simpl in *; [reflexivity|lia].
  - destruct s as [|x s]; [reflexivity|].
    cbn [replace_aux startswith replace_char].
    replace (startswith s "") with true by (destruct s; reflexivity).
    rewrite andb_true_r. simpl in Hs.
    destruct (Ascii.eqb c x).
    + cbn [String.length substring]. rewrite substring_0_full by lia.
      rewrite IH by lia; reflexivity.
    + rewrite IH by lia; reflexivity.
Qed.

Lemma py_replace_char (s : string) (c : ascii) (new : string) :
  py_replace s (String c EmptyString) new = replace_char c new s.
Proof. apply replace_aux_char; lia. Qed.

Lemma replace_char_delete (c : ascii) (l : list ascii) :
  replace_char c "" (str_of l) = str_of (filter (fun x => negb (Ascii.eqb c x)) l).
Proof.
  induction l as [|x l IH]; [reflexivity|]. simpl.
  destruct (Ascii.eqb c x); simpl; rewrite IH; reflexivity.
Qed.

Lemma filter_id_forall {A} (f : A -> bool) (l : list A) :
  Forall (fun x => f x = true) l -> filter f l = l.
Proof. induction 1 as [|x l Hx _ IH]; simpl; [|rewrite Hx, IH]; reflexivity. Qed.

Lemma filter_rev_comm {A} (f : A -> bool) (l : list A) :
  filter f (rev l) = rev (filter f l).
Proof.
  induction l as [|x l IH]; simpl; [reflexivity|].
  rewrite filter_app, IH; simpl. destruct (f x); simpl; [reflexivity|apply app_nil_r].
Qed.

Lemma group_rev_filter (l : list ascii) :
  filter (fun x => negb (Ascii.eqb "," x)) (group_rev l)
  = filter (fun x => negb (Ascii.eqb "," x)) l.
Proof.
  remember (length l) as n eqn:Hn. revert l Hn.
  induction n as [n IH] using lt_wf_ind; intros l Hn.
  destruct l as [|a [|b [|c [|d r]]]]; try reflexivity.
  change (group_rev (a :: b :: c :: d :: r))
    with (a :: b :: c :: ","%char :: group_rev (d :: r)).
  replace (a :: b :: c :: ","%char :: group_rev (d :: r))
    with ([a; b; c] ++ [","%char] ++ group_rev (d :: r))%list by reflexivity.
  replace (a :: b :: c :: d :: r) with ([a; b; c] ++ d :: r)%list by reflexivity.
  rewrite !filter_app.
  rewrite (IH (length (d :: r))) by (simpl in *; lia || reflexivity).
  reflexivity.
Qed.

Lemma digit_is_digit (k : Z) : 0 <= k < 10 -> is_digit (digit k) = true.
Proof.
  intros H.
  assert (k = 0 \/ k = 1 \/ k = 2 \/ k = 3 \/ k = 4 \/ k = 5 \/ k = 6 \/ k = 7
          \/ k = 8 \/ k = 9) as Hk by lia.
  repeat destruct Hk as [->|Hk]; try reflexivity; subst; reflexivity.
Qed.

Lemma digits_aux_digits (fuel : nat) (m : Z) (acc : list ascii) :
  Forall (fun c => is_digit c = true) acc ->
  Forall (fun c => is_digit c = true) (digits_aux fuel m acc).
Proof.
  revert m acc; induction fuel as [|fuel IH]; intros m acc H; simpl; [exact H|].
  assert (Hd : is_digit (digit (m mod 10)) = true)
    by (apply digit_is_digit; apply Z.mod_pos_bound; lia).
  destruct (m <? 10); [constructor; auto|apply IH; constructor; auto].
Qed.

Lemma z_digits_digits (m : Z) : Forall (fun c => is_digit c = true) (z_digits m).
Proof. apply digits_aux_digits; constructor. Qed.

Lemma zpad_digits (w : nat) (l : list ascii) :
  Forall (fun c => is_digit c = true) l ->
  Forall (fun c => is_digit c = true) (zpad w l).
Proof.
  intros H; unfold zpad; apply Forall_app; split; [|exact H].
  apply Forall_forall; intros x Hx; apply repeat_spec in Hx; subst; reflexivity.
Qed.

Lemma digit_not_comma (c : ascii) : is_digit c = true -> negb (Ascii.eqb "," c) = true.
Proof.
  unfold is_digit; intros H.
  destruct (Ascii.eqb_spec "," c) as [<-|_]; [discriminate|reflexivity].
Qed.

Lemma forall_firstn_skipn {A} (P : A -> Prop) (k : nat) (l : list A) :
  Forall P l -> Forall P (firstn k l) /\ Forall P (skipn k l).
Proof.
  intros H; rewrite <- (firstn_skipn k l) in H; apply Forall_app in H; exact H.
Qed.

(** X3. The ',' format option only inserts grouping commas: deleting every
    ',' from ["{:,.Nf}"] output gives the ungrouped [".Nf"] output. *)
Theorem format_grouping_separators (prec : nat) (n : Z) (d : positive) :
  py_replace (format_fixed true prec n d) "," "" = format_fixed false prec n d.
Proof.
  rewrite py_replace_char. unfold format_fixed.
  set (ds := zpad (S prec) _).
  assert (Hds : Forall (fun c => is_digit c = true) ds)
    by (apply zpad_digits, z_digits_digits).
  set (k := (length ds - prec)%nat).
  destruct (forall_firstn_skipn _ k ds Hds) as [Hip Hfp].
  set (ip := firstn k ds) in *; set (fp := skipn k ds) in *.
  assert (Hnc : forall l, Forall (fun c => is_digit c = true) l ->
            filter (fun x => negb (Ascii.eqb "," x)) l = l)
    by (intros l Hl; apply filter_id_forall;
        eapply Forall_impl; [|exact Hl]; exact digit_not_comma).
  rewrite replace_char_delete, !filter_app.
  unfold group3; rewrite filter_rev_comm, group_rev_filter, filter_rev_comm, rev_involutive.
  rewrite (Hnc ip Hip).
  f_equal. f_equal; [destruct (n <? 0); reflexivity|].
  f_equal. destruct prec; [reflexivity|]. cbn [filter].
  replace (negb (Ascii.eqb "," ".")) with true by reflexivity.
  rewrite (Hnc fp Hfp); reflexivity.
Qed.

Lemma str_of_chars (s : string) : str_of (chars s) = s.
Proof. induction s as [|c s IH]; simpl; congruence. Qed.

Lemma in_range_nat (y lo n : Z) :
  lo <= y < lo + n -> 0 <= lo -> In y (map Z.of_nat (seq (Z.to_nat lo) (Z.to_nat n))).
Proof.
  intros H Hlo. apply in_map_iff. exists (Z.to_nat y). split; [lia|].
  apply in_seq. lia.
Qed.

Lemma zfill4_shape (y : Z) : 0 <= y <= 9999 ->
  exists a b c e, zfill 4 y = String a (String b (String c (String e EmptyString)))
    /\ is_digit a && is_digit b && is_digit c && is_digit e = true
    /\ 1000 * dval a + 100 * dval b + 10 * dval c + dval e = y.
Proof.
  intros Hy.
  assert (Hall : forallb (fun y =>
     match zfill 4 y with
     | String a (String b (String c (String e EmptyString))) =>
         is_digit a && is_digit b && is_digit c && is_digit e
         && (1000 * dval a + 100 * dval b + 10 * dval c + dval e =? y)
     | _ => false
     end) (map Z.of_nat (seq 0 (Z.to_nat 10000))) = true) by (vm_compute; reflexivity).
  rewrite forallb_forall in Hall.
  specialize (Hall y (in_range_nat y 0 10000 ltac:(lia) ltac:(lia))).
  destruct (zfill 4 y) as [|a [|b [|c [|e [|x r]]]]]; try discriminate.
  apply andb_true_iff in Hall as [H1 H2]. apply Z.eqb_eq in H2.
  exists a, b, c, e; auto.
Qed.

Lemma month_day_parse (m d : Z) : 1 <= m <= 12 -> 1 <= d <= 31 ->
  first_month_day (month_alts (zfill 2 m ++ "-" ++ zfill 2 d)) = Some (m, d, EmptyString).
Proof.
  intros Hm Hd.
  assert (Hall : forallb (fun m => forallb (fun d =>
     match first_month_day (month_alts (zfill 2 m ++ "-" ++ zfill 2 d)) with
     | Some (m', d', EmptyString) => (m' =? m) && (d' =? d)
     | _ => false
     end) (map Z.of_nat (seq 1 31))) (map Z.of_nat (seq 1 12)) = true)
    by (vm_compute; reflexivity).
  rewrite forallb_forall in Hall.
  specialize (Hall m (in_range_nat m 1 12 ltac:(lia) ltac:(lia))).
  rewrite forallb_forall in Hall.
  specialize (Hall d (in_range_nat d 1 31 ltac:(lia) ltac:(lia))).
  destruct (first_month_day _) as [[[m' d'] [|x r]]|]; try discriminate.
  apply andb_true_iff in Hall as [H1 H2]; apply Z.eqb_eq in H1, H2; subst; reflexivity.
Qed.

Lemma days_in_month_le (y m : Z) : days_in_month y m <= 31.
Proof. unfold days_in_month; repeat destruct (_ : bool); lia. Qed.

Lemma udigit_ascii (c : ascii) (r : string) :
  is_digit c = true -> udigit (String c r) = Some (dval c, r).
Proof.
  destruct c as [b0 b1 b2 b3 b4 b5 b6 b7];
    destruct b0, b1, b2, b3, b4, b5, b6, b7; try discriminate; reflexivity.
Qed.

Lemma udigit_range (s : string) (v : Z) (r : string) :
  udigit s = Some (v, r) -> 0 <= v <= 9.
Proof.
  unfold udigit, unicode_digit.
  destruct (utf8_next s) as [[cp r0]|]; [|discriminate].
  destruct (find _ nd_zeros) as [z|] eqn:Hf; [|discriminate].
  apply find_some in Hf as [_ Hf].
  apply andb_true_iff in Hf as [H1 H2]; apply Z.leb_le in H1; apply Z.ltb_lt in H2.
  intros H; injection H as <- _; lia.
Qed.

Lemma strptime_isoformat (dt : date)
    (Hy : 1 <= year dt <= 9999) (Hm : 1 <= month dt <= 12)
    (Hd : 1 <= day dt <= days_in_month (year dt) (month dt)) :
  strptime_ymd (isoformat dt) = Some dt.
Proof.
  destruct dt as [y m d]; cbn [year month day] in *.
  destruct (zfill4_shape y ltac:(lia)) as (a & b & c & e & Hz & Hdig & Hval).
  repeat rewrite andb_true_iff in Hdig. destruct Hdig as [[[Ha Hb] Hc] He].
  pose proof (days_in_month_le y m).
  unfold isoformat; cbn [year month day]; rewrite Hz.
  cbn [append]. unfold strptime_ymd.
  rewrite (udigit_ascii a _ Ha), (udigit_ascii b _ Hb), (udigit_ascii c _ Hc),
    (udigit_ascii e _ He).
  cbv beta iota. cbn [Ascii.eqb Bool.eqb]. rewrite Hval.
  pose proof (month_day_parse m d ltac:(lia) ltac:(lia)) as Hmd.
  cbn [append] in Hmd; rewrite Hmd.
  replace ((1 <=? y) && (d <=? days_in_month y m)) with true by lia.
  reflexivity.
Qed.

(** X4. On the dates of the supported range (years 1 to 9999, valid
    month and day), [datetime.strptime(_, "%Y-%m-%d")] parses back what
    [date.isoformat()] printed: the date [get_report_date] formats is the
    date [strptime] reads. *)
Theorem strptime_isoformat_roundtrip (dt : date)
    (Hy : 1 <= year dt <= 9999) (Hm : 1 <= month dt <= 12)
    (Hd : 1 <= day dt <= days_in_month (year dt) (month dt)) :
  strptime_ymd (isoformat dt) = Some dt.
Proof. apply strptime_isoformat; assumption. Qed.

Lemma dval_range (c : ascii) : is_digit c = true -> 0 <= dval c <= 9.
Proof.
  unfold is_digit, dval; intros H.
  apply andb_true_iff in H as [H1 H2]; apply Nat.leb_le in H1, H2; lia.
Qed.

Ltac alt_case :=
  match goal with
  | H : In _ (if ?b then _ else _) |- _ =>
      let Hb := fresh "Hb" in destruct b eqn:Hb; [|destruct H]
  | H : In _ [_] |- _ =>
      destruct H as [H|[]]; apply pair_equal_spec in H; destruct H as [H ?]; subst
  | H : In _ (match ?u with Some _ => _ | None => _ end) |- _ =>
      let Hu := fresh "Hu" in
      destruct u as [[? ?]|] eqn:Hu; [apply udigit_range in Hu|destruct H]
  end.

Lemma month_alts_range (s : string) (m : Z) (r : string) :
  In (m, r) (month_alts s) -> 1 <= m <= 12.
Proof.
  unfold month_alts; intros H.
  repeat (apply in_app_or in H; destruct H as [H|H]);
    destruct s as [|a [|b s]]; try destruct H; repeat alt_case;
    repeat match goal with
           | H : (_ && _)%bool = true |- _ => apply andb_true_iff in H as [? ?]
           | H : (_ <=? _) = true |- _ => apply Z.leb_le in H
           | H : is_digit ?c = true |- _ => apply dval_range in H
           | H : Ascii.eqb _ _ = true |- _ => apply Ascii.eqb_eq in H; subst
           end; lia.
Qed.

Lemma day_alts_pos (s : string) (d : Z) (r : string) :
  In (d, r) (day_alts s) -> 1 <= d.
Proof.
  unfold day_alts; intros H.
  repeat (apply in_app_or in H; destruct H as [H|H]);
    destruct s as [|a [|b s]]; try destruct H; repeat alt_case;
    repeat match goal with
           | H : (_ && _)%bool = true |- _ => apply andb_true_iff in H as [? ?]
           | H : (_ || _)%bool = true |- _ => apply orb_true_iff in H as [?|?]
           | H : (_ <=? _) = true |- _ => apply Z.leb_le in H
           | H : is_digit ?c = true |- _ => apply dval_range in H
           | H : Ascii.eqb _ _ = true |- _ => apply Ascii.eqb_eq in H; subst
           end;
    try change (dval "1"%char) with 1 in *; try change (dval "2"%char) with 2 in *;
    lia.
Qed.

Lemma first_month_day_in (ms : list (Z * string)) (m d : Z) (rest : string) :
  first_month_day ms = Some (m, d, rest) ->
  (exists r, In (m, r) ms) /\ exists s, In (d, rest) (day_alts s).
Proof.
  induction ms as [|[m0 [|c r]] ms IH]; simpl; intros H; [discriminate| |].
  - destruct (IH H) as [[r Hr] Hd]; split; [exists r; right; exact Hr|exact Hd].
  - destruct (Ascii.eqb c "-").
    + destruct (day_alts r) as [|[d0 rest0] ds] eqn:Hda.
      * destruct (IH H) as [[r' Hr] Hd]; split; [exists r'; right; exact Hr|exact Hd].
      * injection H as <- <- <-. split; [eexists; left; reflexivity|].
        exists r; rewrite Hda; left; reflexivity.
    + destruct (IH H) as [[r' Hr] Hd]; split; [exists r'; right; exact Hr|exact Hd].
Qed.

Lemma strptime_valid (s : string) (dt : date) :
  strptime_ymd s = Some dt ->
  1 <= year dt <= 9999 /\ 1 <= month dt <= 12
  /\ 1 <= day dt <= days_in_month (year dt) (month dt).
Proof.
  unfold strptime_ymd.
  destruct (udigit s) as [[y1 s1]|] eqn:H1; [|discriminate].
  destruct (udigit s1) as [[y2 s2]|] eqn:H2; [|discriminate].
  destruct (udigit s2) as [[y3 s3]|] eqn:H3; [|discriminate].
  destruct (udigit s3) as [[y4 [|c r]]|] eqn:H4; try discriminate.
  destruct (Ascii.eqb c "-"); [|discriminate].
  remember (1000 * y1 + 100 * y2 + 10 * y3 + y4) as y eqn:Hy.
  destruct (first_month_day (month_alts r)) as [[[m d] [|x rest]]|] eqn:Hf;
    try discriminate.
  destruct (first_month_day_in _ _ _ _ Hf) as [[r' Hm] [s' Hd]].
  apply month_alts_range in Hm. apply day_alts_pos in Hd.
  apply udigit_range in H1, H2, H3, H4.
  destruct ((1 <=? _) && (d <=? _)) eqn:Hv; [|discriminate].
  apply andb_true_iff in Hv as [Hv1 Hv2]; apply Z.leb_le in Hv1, Hv2.
  intros Heq; injection Heq as <-; cbn [year month day]; lia.
Qed.

(** X5. The date [get_report_date] settles on, whether parsed from argv,
    read from the database (a valid calendar date) or the fallback, is
    itself accepted as a command-line date: passing it back as argv[1]
    returns it unchanged, whatever the database answers. *)
Theorem report_date_reparses (argv : list string) (max_fecha : exc (option date))
    (d : string) (Hd : get_report_date argv max_fecha = Ok d)
    (Hdb : forall dt, max_fecha = Ok (Some dt) ->
           1 <= year dt <= 9999 /\ 1 <= month dt <= 12
           /\ 1 <= day dt <= days_in_month (year dt) (month dt)) :
  forall prog max_fecha', get_report_date [prog; d] max_fecha' = Ok d.
Proof.
  intros prog max_fecha'.
  assert (Hiso : forall dt, 1 <= year dt <= 9999 /\ 1 <= month dt <= 12
            /\ 1 <= day dt <= days_in_month (year dt) (month dt) ->
            get_report_date [prog; isoformat dt] max_fecha' = Ok (isoformat dt)).
  { intros dt (Hy & Hm & Hdd). unfold get_report_date.
    rewrite strptime_isoformat by assumption. reflexivity. }
  unfold get_report_date in Hd.
  destruct max_fecha as [[dt|]|e] eqn:Hmf;
    destruct argv as [|a0 [|arg rest]]; cbn [exc_bind] in Hd;
    try (destruct (strptime_ymd arg) as [dt'|] eqn:Hs; cbn [exc_bind] in Hd);
    try discriminate; injection Hd as <-;
    first [ apply Hiso; apply (strptime_valid arg); assumption
          | apply Hiso; apply Hdb; reflexivity
          | reflexivity ].
Qed.

(** X7. In a run where no error placeholder raises, the composer returns
    normally, records exactly the top-level images that precede the first
    date marker (read from the Paragraph's normalised [.text]) of each
    successful generator, and the files left afterwards are the disk minus
    those it removed. *)
Theorem cleanup_deletes_scanned_images (CE : cenv) (E : env) (output_file : string)
    (gs : list generator) (report_date : string) (disk : list string)
    (Hok : forallb (placeholder_ok CE E report_date) gs = true) :
  fst (generate_multi_report_pdf CE E output_file gs report_date disk) = Ok tt
  /\ image_paths (snd (generate_multi_report_pdf CE E output_file gs report_date disk))
     = flat_map (output_images CE E report_date) gs
  /\ files (snd (generate_multi_report_pdf CE E output_file gs report_date disk))
     = files_after_cleanup CE (flat_map (output_images CE E report_date) gs) disk.
Proof.
  pose proof (forallb_in _ _ Hok) as Hin.
  destruct (generate_spec CE E report_date output_file gs disk Hin)
    as (w1 & w & H1 & _ & _ & H4 & _ & _ & _ & H8 & H9).
  pose proof (run_sub_reports_images CE E report_date gs (init_world disk) Hin) as Hi.
  rewrite H1 in Hi; cbn [snd image_paths init_world app] in Hi.
  rewrite H4; cbn [fst snd]. rewrite H8, H9, Hi. auto.
Qed.

Lemma exc_mapM_ok_iff {A B} (f : A -> exc B) (l : list A) :
  (exists ys, exc_mapM f l = Ok ys) <-> Forall (fun x => exists y, f x = Ok y) l.
Proof.
  induction l as [|x l IH]; cbn [exc_mapM].
  - split; [constructor|intros _; eexists; reflexivity].
  - split.
    + intros [ys H]. destruct (f x) as [y|e] eqn:Hx; cbn [exc_bind] in H; [|discriminate].
      destruct (exc_mapM f l) as [ys'|e] eqn:Hl; cbn [exc_bind] in H; [|discriminate].
      constructor; [exists y; exact Hx|apply IH; eexists; reflexivity].
    + intros H; inversion H as [|? ? [y Hy] Hl]; subst.
      destruct (proj2 IH Hl) as [ys Hys]. rewrite Hy, Hys; eexists; reflexivity.
Qed.

Lemma exc_mapM_post {A B} (f : A -> exc B) (P : A -> B -> Prop) (l : list A) (ys : list B) :
  (forall x y, In x l -> f x = Ok y -> P x y) ->
  exc_mapM f l = Ok ys -> Forall (fun y => exists x, In x l /\ P x y) ys.
Proof.
  revert ys; induction l as [|x l IH]; intros ys Hf H; cbn [exc_mapM] in H.
  - injection H as <-; constructor.
  - destruct (f x) as [y|e] eqn:Hx; cbn [exc_bind] in H; [|discriminate].
    destruct (exc_mapM f l) as [ys'|e] eqn:Hl; cbn [exc_bind] in H; [|discriminate].
    injection H as <-. constructor.
    + exists x; split; [left; reflexivity|apply Hf; [left; reflexivity|exact Hx]].
    + eapply Forall_impl; [|apply IH; [|reflexivity]].
      * intros y' (x' & Hx' & Hp); exists x'; split; [right; exact Hx'|exact Hp].
      * intros x' y' Hin Hy'; apply Hf; [right; exact Hin|exact Hy'].
Qed.

Lemma exc_mapM_length {A B} (f : A -> exc B) (l : list A) (ys : list B) :
  exc_mapM f l = Ok ys -> length ys = length l.
Proof.
  revert ys; induction l as [|x l IH]; intros ys H; cbn [exc_mapM] in H.
  - injection H as <-; reflexivity.
  - destruct (f x); cbn [exc_bind] in H; [|discriminate].
    destruct (exc_mapM f l) eqn:Hl; cbn [exc_bind] in H; [|discriminate].
    injection H as <-; cbn; f_equal; apply IH; reflexivity.
Qed.

Lemma fmt_thousands_ok (prec : nat) (v : value) :
  (exists s, fmt_thousands prec v = Ok s)
  <-> match v with VNum _ _ | VDate _ => True | _ => False end.
Proof. destruct v; cbn; split; intros H; try destruct H; try discriminate; eauto. Qed.

Lemma row_at_ok (r : row) (i : nat) :
  (exists v, row_at r i = Ok v) <-> (i < length r)%nat.
Proof.
  unfold row_at. rewrite <- nth_error_Some.
  destruct (nth_error r i); split; intros H; eauto; try congruence; destruct H; discriminate.
Qed.

(** X8. A [sub_report_efec_*] generator whose query answers rows succeeds
    exactly when every row has numeric or date cells at indices 2 to 8;
    any other row makes it raise. *)
Theorem sub_report_efec_ok_iff (q : qid) (none_msg title : string) (header : list string)
    (prec : nat) (widths : list Z) (E : env) (report_date : string) (data : list row)
    (Hdb : db E q [report_date] = Ok data) :
  (exists es, sub_report_efec q none_msg title header prec widths E report_date = Ok es)
  <-> Forall (fun r => forall i, In i [2; 3; 4; 5; 6; 7; 8]%nat ->
                exists v, nth_error r i = Some v
                          /\ match v with VNum _ _ | VDate _ => True | _ => False end) data.
Proof.
  unfold sub_report_efec; rewrite Hdb; cbn [exc_bind].
  destruct data as [|r0 data]; [split; [constructor|eauto]|].
  set (f := fun r : row => _).
  transitivity (exists rows, exc_mapM f (r0 :: data) = Ok rows).
  { split.
    - intros [es H]. destruct (exc_mapM f _) as [rows|e]; cbn [exc_bind] in H;
        [eexists; reflexivity|discriminate].
    - intros [rows H]; rewrite H; eexists; reflexivity. }
  rewrite exc_mapM_ok_iff.
  split; intros H; eapply Forall_impl; try exact H; cbv beta.
  - intros r [y Hy]. subst f; cbv beta in Hy.
    destruct (row_at r 1) as [c1|e] eqn:H1; cbn [exc_bind] in Hy; [|discriminate].
    destruct (exc_mapM _ _) as [cs|e] eqn:Hcs; cbn [exc_bind] in Hy; [|discriminate].
    pose proof (proj1 (exc_mapM_ok_iff _ _) (ex_intro _ cs Hcs)) as Hall.
    rewrite Forall_forall in Hall.
    intros i Hi. destruct (Hall i Hi) as [s Hs].
    destruct (row_at r i) as [v|e] eqn:Hv; cbn [exc_bind] in Hs; [|discriminate].
    exists v; split; [unfold row_at in Hv; destruct (nth_error r i); congruence|].
    apply (fmt_thousands_ok prec v); eauto.
  - intros r Hr. subst f; cbv beta.
    assert (Hcs : exists cs, exc_mapM (fun i => v <- row_at r i ;; fmt_thousands prec v)
                                [2; 3; 4; 5; 6; 7; 8]%nat = Ok cs).
    { apply exc_mapM_ok_iff, Forall_forall. intros i Hi.
      destruct (Hr i Hi) as (v & Hv & Hf). unfold row_at; rewrite Hv; cbn [exc_bind].
      apply fmt_thousands_ok; exact Hf. }
    destruct (Hr 2%nat ltac:(simpl; auto)) as (v2 & Hv2 & _).
    assert (H1 : exists c1, row_at r 1 = Ok c1).
    { apply row_at_ok. assert (2 < length r)%nat by (apply nth_error_Some; congruence). lia. }
    destruct H1 as [c1 H1]; destruct Hcs as [cs Hcs].
    rewrite H1; cbn [exc_bind]; rewrite Hcs; eexists; reflexivity.
Qed.

Lemma pct_cell_ok (v : value) :
  (exists s, pct_cell v = Ok s) <-> v = VNull \/ exists n d, v = VNum n d.
Proof.
  destruct v; cbn; split; intros H; eauto;
    repeat match goal with
    | H : exists _, _ |- _ => destruct H
    | H : _ \/ _ |- _ => destruct H
    end; discriminate.
Qed.

Lemma nth_error_row_at (r : row) (i : nat) (v : value) :
  nth_error r i = Some v <-> row_at r i = Ok v.
Proof. unfold row_at; destruct (nth_error r i); split; congruence. Qed.

Lemma exc_mapM_in {A B} (f : A -> exc B) (l : list A) (ys : list B) :
  exc_mapM f l = Ok ys -> forall x, In x l -> exists y, In y ys /\ f x = Ok y.
Proof.
  revert ys; induction l as [|a l IH]; intros ys H x Hx; [destruct Hx|].
  cbn [exc_mapM] in H.
  destruct (f a) as [y|e] eqn:Hf; cbn [exc_bind] in H; [|discriminate].
  destruct (exc_mapM f l) as [ys'|e] eqn:Hl; cbn [exc_bind] in H; [|discriminate].
  injection H as <-. destruct Hx as [<-|Hx]; [exists y; simpl; auto|].
  destruct (IH ys' eq_refl x Hx) as (y' & Hy' & Hfx); exists y'; simpl; auto.
Qed.

Lemma fold_max_const (W : nat) (l : list nat) (acc : nat) :
  Forall (fun n => n = W) l -> l <> [] -> fold_left Nat.max l acc = Nat.max acc W.
Proof.
  revert acc; induction l as [|a l IH]; intros acc Hl Hne; [congruence|].
  inversion Hl as [|? ? Ha Hl']; subst. cbn [fold_left].
  destruct l as [|b l]; [reflexivity|].
  rewrite IH by (auto || discriminate). lia.
Qed.

(** [Table(data, colWidths)] accepts a non-empty [data] exactly when every
    row has one cell per column width. *)
Lemma table_check_ok (h : list cell) (rows : list (list cell)) (widths : list Z) :
  table_check (h :: rows) widths = Ok tt
  <-> Forall (fun r => length r = length widths) (h :: rows).
Proof.
  unfold table_check. split.
  - destruct (negb _) eqn:Hn; [discriminate|].
    destruct (forallb _ _) eqn:Hall; [|discriminate]. intros _.
    apply negb_false_iff, Nat.eqb_eq in Hn.
    apply Forall_forall; intros r Hr.
    rewrite forallb_forall in Hall; specialize (Hall r Hr).
    apply Nat.eqb_eq in Hall; congruence.
  - intros H.
    rewrite (fold_max_const (length widths)) by
      (first [rewrite Forall_map; exact H | discriminate]).
    rewrite Nat.max_0_l, Nat.eqb_refl; cbn [negb].
    replace (forallb _ _) with true; [reflexivity|].
    symmetry; apply forallb_forall; intros r Hr.
    rewrite Forall_forall in H; rewrite (H r Hr); apply Nat.eqb_refl.
Qed.

(** X9. [sub_report_rentabilidades] succeeds exactly when every row has
    twelve cells (the Table's eleven column widths take the row's cells
    from index 1 on), a number or date at index 2, and only numbers or
    NULL from index 5 on; a row of another length makes the Table raise. *)
Theorem rentabilidades_ok_iff (E : env) (report_date : string) (data : list row)
    (Hdb : db E Q_rentabilidades [report_date] = Ok data) :
  (exists es, Report.sub_report_rentabilidades E report_date = Ok es)
  <-> Forall (fun r => length r = 12%nat
                /\ (exists v, nth_error r 2 = Some v
                              /\ match v with VNum _ _ | VDate _ => True | _ => False end)
                /\ Forall (fun v => v = VNull \/ exists n d, v = VNum n d) (skipn 5 r)) data.
Proof.
  unfold Report.sub_report_rentabilidades; rewrite Hdb; cbn [exc_bind].
  destruct data as [|r0 data]; [split; [constructor|eauto]|].
  set (f := fun r : row => _).
  assert (Hrow : forall r y, f r = Ok y ->
            length y = (length r - 1)%nat
            /\ (5 <= length r)%nat
            /\ (exists v, nth_error r 2 = Some v
                          /\ match v with VNum _ _ | VDate _ => True | _ => False end)
            /\ Forall (fun v => v = VNull \/ exists n d, v = VNum n d) (skipn 5 r)).
  { intros r y Hy. unfold f in Hy; cbv beta in Hy.
    destruct (row_at r 1) as [c1|e] eqn:H1; cbn [exc_bind] in Hy; [|discriminate].
    destruct (row_at r 2) as [v2|e] eqn:H2; cbn [exc_bind] in Hy; [|discriminate].
    destruct (fmt_thousands 0 v2) as [c2|e] eqn:Hf2; cbn [exc_bind] in Hy; [|discriminate].
    destruct (row_at r 3) as [c3|e] eqn:H3; cbn [exc_bind] in Hy; [|discriminate].
    destruct (row_at r 4) as [c4|e] eqn:H4; cbn [exc_bind] in Hy; [|discriminate].
    destruct (exc_mapM pct_cell (skipn 5 r)) as [ps|e] eqn:Hps; cbn [exc_bind] in Hy;
      [|discriminate].
    injection Hy as <-.
    assert (4 < length r)%nat by (apply row_at_ok; eauto).
    split; [|split; [lia|split]].
    - cbn [length app]. rewrite length_map.
      rewrite (exc_mapM_length _ _ _ Hps), length_skipn. lia.
    - exists v2; split; [apply nth_error_row_at; exact H2|].
      apply (fmt_thousands_ok 0); eauto.
    - pose proof (proj1 (exc_mapM_ok_iff _ _) (ex_intro _ ps Hps)) as Hall.
      eapply Forall_impl; [|exact Hall]. intros v Hv; apply pct_cell_ok; exact Hv. }
  assert (Hrow' : forall r, (5 <= length r)%nat ->
            (exists v, nth_error r 2 = Some v
                       /\ match v with VNum _ _ | VDate _ => True | _ => False end) ->
            Forall (fun v => v = VNull \/ exists n d, v = VNum n d) (skipn 5 r) ->
            exists y, f r = Ok y).
  { intros r Hlen (v2 & Hv2 & Hf2) Hps. unfold f; cbv beta.
    destruct (proj2 (row_at_ok r 1) ltac:(lia)) as [c1 H1].
    destruct (proj2 (row_at_ok r 3) ltac:(lia)) as [c3 H3].
    destruct (proj2 (row_at_ok r 4) ltac:(lia)) as [c4 H4].
    destruct (proj2 (fmt_thousands_ok 0 v2) Hf2) as [c2 Hc2].
    destruct (proj2 (exc_mapM_ok_iff pct_cell (skipn 5 r))
                (Forall_impl _ (fun v Hv => proj2 (pct_cell_ok v) Hv) Hps)) as [ps Hp].
    apply nth_error_row_at in Hv2.
    rewrite H1; cbn [exc_bind]; rewrite Hv2; cbn [exc_bind]; rewrite Hc2; cbn [exc_bind].
    rewrite H3; cbn [exc_bind]; rewrite H4; cbn [exc_bind]; rewrite Hp; cbn [exc_bind].
    eexists; reflexivity. }
  split.
  - intros [es H].
    destruct (exc_mapM f _) as [rows|e] eqn:Hm; cbn [exc_bind] in H; [|discriminate].
    destruct (table_check _ _) as [[]|e] eqn:Ht; cbn [exc_bind] in H; [|discriminate].
    apply table_check_ok in Ht. inversion Ht as [|? ? _ Hrows]; subst.
    apply Forall_forall; intros r Hr.
    destruct (exc_mapM_in f _ _ Hm r Hr) as (y & Hy & Hfy).
    destruct (Hrow r y Hfy) as (Hl & H5 & H2 & Hps).
    rewrite Forall_forall in Hrows; specialize (Hrows y Hy). cbn [length] in Hrows.
    split; [lia|auto].
  - intros H.
    assert (Hm : exists rows, exc_mapM f (r0 :: data) = Ok rows).
    { apply exc_mapM_ok_iff. eapply Forall_impl; [|exact H].
      intros r (Hl & H2 & Hps). apply Hrow'; [lia|exact H2|exact Hps]. }
    destruct Hm as [rows Hm]; rewrite Hm; cbn [exc_bind].
    match goal with
    | |- context [table_check ?td ?ws] => assert (Ht : table_check td ws = Ok tt)
    end.
    { apply table_check_ok. constructor; [reflexivity|].
      pose proof (exc_mapM_post f (fun x y => length y = (length x - 1)%nat) _ _
                    (fun x y _ Hy => proj1 (Hrow x y Hy)) Hm) as Hp.
      eapply Forall_impl; [|exact Hp]. intros y (x & Hx & Hy). cbv beta in Hy.
      rewrite Forall_forall in H; destruct (H x Hx) as (Hl & _).
      cbn [length]; lia. }
    rewrite Ht; cbn [exc_bind]. eexists; reflexivity.
Qed.

Lemma exc_mapM_forall {A B} (f : A -> exc B) (P : B -> Prop) (l : list A) (ys : list B) :
  (forall x y, In x l -> f x = Ok y -> P y) ->
  exc_mapM f l = Ok ys -> Forall P ys.
Proof.
  intros Hf H. eapply Forall_impl; [|exact (exc_mapM_post f (fun _ y => P y) l ys Hf H)].
  intros y (x & _ & Hy); exact Hy.
Qed.

(** X10. In every table built by a configured generator, each row has as
    many cells as there are column widths, provided the rentabilidades
    query answers twelve columns, as its SELECT lists. *)
Theorem configured_tables_match_widths (g : generator) (E : env) (report_date : string)
    (es : list elem)
    (Hg : In g (Report.sub_reports ++ ReportAum.sub_reports)%list)
    (Hrent : forall ps rows, db E Q_rentabilidades ps = Ok rows ->
             Forall (fun r => length r = 12%nat) rows)
    (Hes : grun g E report_date = Ok es) :
  forall data widths, In (Table data widths) es ->
  Forall (fun row => length row = length widths) data.
Proof.
  simpl in Hg.
  repeat (destruct Hg as [<-|Hg]); [..|destruct Hg]; cbn [grun] in Hes;
    unfold Report.sub_report_cover, Report.sub_report_summary, Report.sub_report_efec_categoria,
      Report.sub_report_efec_subcategoria, Report.sub_report_efec_gerente,
      Report.sub_report_rentabilidades, Report.sub_report_fondos_sin_clasificar,
      ReportAum.sub_report_efec_subcategoria, ReportAum.sub_report_efec_categoria,
      ReportAum.sub_report_summary, sub_report_efec in Hes;
    repeat match type of Hes with
    | context [exc_bind (db E ?q ?ps) _] =>
        let Hq := fresh "Hq" in
        destruct (db E q ps) as [[|? ?]|?] eqn:Hq; cbn [exc_bind] in Hes
    | context [exc_bind (exc_mapM ?f ?l) _] =>
        let Hm := fresh "Hm" in destruct (exc_mapM f l) eqn:Hm; cbn [exc_bind] in Hes
    | context [match render_chart E ?p ?m with _ => _ end] =>
        destruct (render_chart E p m) eqn:?
    | context [exc_bind (table_check ?td ?ws) _] =>
        let Ht := fresh "Ht" in
        destruct (table_check td ws) as [[]|?] eqn:Ht; cbn [exc_bind] in Hes
    end;
    try discriminate; injection Hes as <-;
    intros data widths Hin; cbn [Report.summary_charts app no_data In] in Hin;
    repeat (destruct Hin as [Hin|Hin]; try discriminate); try contradiction;
    injection Hin as <- <-;
    try solve [match goal with
               | Ht : table_check _ _ = Ok tt |- _ => exact (proj1 (table_check_ok _ _ _) Ht)
               end];
    (constructor; [reflexivity|]); cbn [efec_widths length];
    try solve [constructor];
    (eapply exc_mapM_forall; [|eassumption]);
    intros x y Hx Hy; cbv beta in Hy;
    repeat match type of Hy with
    | context [exc_bind ?m _] =>
        let Hb := fresh "Hb" in destruct m eqn:Hb; cbn [exc_bind] in Hy; [|discriminate]
    end;
    injection Hy as <-; cbn [length map app];
    repeat match goal with
    | H : exc_mapM _ _ = Ok _ |- _ => apply exc_mapM_length in H
    end;
    rewrite ?length_map; cbn [length] in *; lia.
Qed.

Lemma chars_py_strip (s : string) : chars (py_strip s) = strip_l (chars s).
Proof. unfold py_strip; apply chars_str_of. Qed.

Lemma list_len_ind {A} (P : list A -> Prop) :
  (forall l, (forall m, (length m < length l)%nat -> P m) -> P l) -> forall l, P l.
Proof.
  intros H l.
  induction l as [l IH] using (well_founded_induction (well_founded_ltof _ (@length A))).
  apply H; intros m Hm; apply IH; exact Hm.
Qed.

Lemma lstrip_l_step (l : list ascii) :
  lstrip_l l = match ws_len l with O => l | k => lstrip_l (skipn k l) end.
Proof.
  destruct l as [|a [|b [|d r]]]; [reflexivity|..]; unfold ws_len; cbn [lstrip_l];
    destruct (is_space a); try reflexivity;
    try destruct (ws2 a b); try reflexivity; try destruct (ws3 a b d); reflexivity.
Qed.

Lemma rstrip_rev_step (l : list ascii) :
  rstrip_rev l = match ws_len_rev l with O => l | k => rstrip_rev (skipn k l) end.
Proof.
  destruct l as [|a [|b [|d r]]]; [reflexivity|..]; unfold ws_len_rev; cbn [rstrip_rev];
    destruct (is_space a); try reflexivity;
    try destruct (ws2 b a); try reflexivity; try destruct (ws3 d b a); reflexivity.
Qed.

Lemma ws_len_le (l : list ascii) : (ws_len l <= length l)%nat.
Proof.
  destruct l as [|a [|b [|d r]]]; unfold ws_len; cbn [length];
    repeat match goal with |- context [if ?x then _ else _] => destruct x end; lia.
Qed.

Lemma ws_len_rev_le (l : list ascii) : (ws_len_rev l <= length l)%nat.
Proof.
  destruct l as [|a [|b [|d r]]]; unfold ws_len_rev; cbn [length];
    repeat match goal with |- context [if ?x then _ else _] => destruct x end; lia.
Qed.

Lemma ws_len_at (l : list ascii) : ws_len l = O <-> ws_at l = false.
Proof.
  destruct l as [|a [|b [|d r]]]; unfold ws_len, ws_at; [tauto| | |];
    destruct (is_space a); cbn [orb];
    try destruct (ws2 a b); cbn [orb];
    try destruct (ws3 a b d);
    split; intros H; first [reflexivity | discriminate H].
Qed.

Lemma ws_len_rev_at (l : list ascii) : ws_len_rev l = O <-> ws_at_rev l = false.
Proof.
  destruct l as [|a [|b [|d r]]]; unfold ws_len_rev, ws_at_rev; [tauto| | |];
    destruct (is_space a); cbn [orb];
    try destruct (ws2 b a); cbn [orb];
    try destruct (ws3 d b a);
    split; intros H; first [reflexivity | discriminate H].
Qed.

Lemma ws_len_head (a : ascii) (m : list ascii) : ws_len (a :: m) = O -> is_space a = false.
Proof. unfold ws_len; destruct (is_space a); [discriminate|reflexivity]. Qed.

Lemma ws_len_rev_head (a : ascii) (m : list ascii) :
  ws_len_rev (a :: m) = O -> is_space a = false.
Proof. unfold ws_len_rev; destruct (is_space a); [discriminate|reflexivity]. Qed.

(** [lstrip_l] and [rstrip_rev] drop a prefix of the list. *)
Lemma lstrip_suffix (l : list ascii) : exists p, l = (p ++ lstrip_l l)%list.
Proof.
  revert l; apply list_len_ind; intros l IH.
  rewrite lstrip_l_step. pose proof (ws_len_le l) as Hle.
  destruct (ws_len l) as [|k]; [exists []; reflexivity|].
  destruct (IH (skipn (S k) l)) as [p Hp]; [rewrite length_skipn; lia|].
  exists (firstn (S k) l ++ p)%list. rewrite <- app_assoc, <- Hp, firstn_skipn. reflexivity.
Qed.

Lemma rstrip_suffix (l : list ascii) : exists p, l = (p ++ rstrip_rev l)%list.
Proof.
  revert l; apply list_len_ind; intros l IH.
  rewrite rstrip_rev_step. pose proof (ws_len_rev_le l) as Hle.
  destruct (ws_len_rev l) as [|k]; [exists []; reflexivity|].
  destruct (IH (skipn (S k) l)) as [p Hp]; [rewrite length_skipn; lia|].
  exists (firstn (S k) l ++ p)%list. rewrite <- app_assoc, <- Hp, firstn_skipn. reflexivity.
Qed.

(** What [lstrip_l] leaves starts with no white-space character. *)
Lemma lstrip_head (l : list ascii) : lstrip_l l = [] \/ ws_len (lstrip_l l) = O.
Proof.
  revert l; apply list_len_ind; intros l IH.
  rewrite lstrip_l_step. pose proof (ws_len_le l) as Hle.
  destruct (ws_len l) as [|k] eqn:Hk; [right; exact Hk|].
  apply IH. rewrite length_skipn; lia.
Qed.

Lemma rstrip_head (l : list ascii) : rstrip_rev l = [] \/ ws_len_rev (rstrip_rev l) = O.
Proof.
  revert l; apply list_len_ind; intros l IH.
  rewrite rstrip_rev_step. pose proof (ws_len_rev_le l) as Hle.
  destruct (ws_len_rev l) as [|k] eqn:Hk; [right; exact Hk|].
  apply IH. rewrite length_skipn; lia.
Qed.

Lemma ws2_ascii (a c : ascii) : byte c < 128 -> ws2 a c = false.
Proof.
  intros Hc. destruct (ws2 a c) eqn:E; [|reflexivity]. exfalso.
  unfold ws2 in E. rewrite andb_true_iff, orb_true_iff, !Z.eqb_eq in E. lia.
Qed.

Lemma ws3_ascii (a b c : ascii) : byte c < 128 -> ws3 a b c = false.
Proof.
  intros Hc. destruct (ws3 a b c) eqn:E; [|reflexivity]. exfalso.
  unfold ws3 in E; cbv zeta in E.
  repeat rewrite ?orb_true_iff, ?andb_true_iff, ?Z.eqb_eq, ?Z.leb_le in E. lia.
Qed.

(** An ASCII byte appended to a non-empty text never completes a
    white-space character at its head. *)
Lemma ws_len_app_ascii (l : list ascii) (c : ascii) :
  l <> [] -> byte c < 128 -> ws_len (l ++ [c]) = ws_len l.
Proof.
  intros Hl Hc. destruct l as [|a [|b [|d r]]]; [congruence| | |reflexivity];
    unfold ws_len; cbn [app].
  - rewrite ws2_ascii by exact Hc. reflexivity.
  - rewrite ws3_ascii by exact Hc. reflexivity.
Qed.

Lemma lstrip_app_ascii (l : list ascii) (c : ascii) : byte c < 128 ->
  lstrip_l (l ++ [c]) = match lstrip_l l with [] => lstrip_l [c] | l' => (l' ++ [c])%list end.
Proof.
  intros Hc. revert l; apply list_len_ind; intros l IH.
  destruct l as [|a r]; [reflexivity|].
  rewrite (lstrip_l_step (a :: r)), (lstrip_l_step ((a :: r) ++ [c])).
  rewrite ws_len_app_ascii by (discriminate || exact Hc).
  pose proof (ws_len_le (a :: r)) as Hle.
  destruct (ws_len (a :: r)) as [|k]; [reflexivity|].
  rewrite skipn_app.
  replace (S k - length (a :: r))%nat with O by lia.
  change (skipn 0 [c]) with [c].
  apply IH. rewrite length_skipn. lia.
Qed.

Lemma rstrip_space (a : ascii) (m : list ascii) :
  is_space a = true -> rstrip_rev (a :: m) = rstrip_rev m.
Proof. intros H; cbn [rstrip_rev]; rewrite H; reflexivity. Qed.

(** [(line + "\n").strip() == line.strip()] *)
Lemma strip_app_space (l : list ascii) (c : ascii) :
  is_space c = true -> byte c < 128 -> strip_l (l ++ [c]) = strip_l l.
Proof.
  intros Hs Hc. unfold strip_l. rewrite (lstrip_app_ascii l c Hc).
  destruct (lstrip_l l) as [|x l'].
  - cbn [lstrip_l]. rewrite Hs. reflexivity.
  - rewrite rev_app_distr. change (rev [c]) with [c]. cbn [app].
    rewrite rstrip_space by exact Hs. reflexivity.
Qed.

Lemma strip_incl (l : list ascii) (c : ascii) : In c (strip_l l) -> In c l.
Proof.
  unfold strip_l; intros H. apply in_rev in H.
  destruct (rstrip_suffix (rev (lstrip_l l))) as [p Hp].
  assert (H1 : In c (rev (lstrip_l l))) by (rewrite Hp; apply in_or_app; right; exact H).
  apply in_rev in H1.
  destruct (lstrip_suffix l) as [q Hq]. rewrite Hq; apply in_or_app; right; exact H1.
Qed.

Lemma strip_shape (l : list ascii) :
  strip_l l = [] \/
  exists a r, strip_l l = a :: r /\ is_space a = false
              /\ is_space (last (a :: r) a) = false.
Proof.
  unfold strip_l.
  destruct (rstrip_rev (rev (lstrip_l l))) as [|z zs] eqn:Hz; [left; reflexivity|right].
  destruct (rstrip_suffix (rev (lstrip_l l))) as [p Hp]. rewrite Hz in Hp.
  apply (f_equal (@rev ascii)) in Hp. rewrite rev_involutive, rev_app_distr in Hp.
  assert (Hne : rev (z :: zs) <> []).
  { intros H. apply (f_equal (@length ascii)) in H. rewrite length_rev in H. discriminate. }
  assert (Hlast : forall d, last (rev (z :: zs)) d = z).
  { intros d; cbn [rev]. apply last_last. }
  destruct (rev (z :: zs)) as [|a r] eqn:Hr; [congruence|].
  exists a, r. split; [reflexivity|]. split.
  - destruct (lstrip_head l) as [H|H]; rewrite Hp in H; [discriminate|].
    exact (ws_len_head a _ H).
  - rewrite Hlast. destruct (rstrip_head (rev (lstrip_l l))) as [H|H];
      rewrite Hz in H; [discriminate|].
    exact (ws_len_rev_head z zs H).
Qed.

(** A text with no white-space character at either end is its own strip. *)
Lemma strip_id_u (l : list ascii) :
  ws_at l = false -> ws_at_rev (rev l) = false -> strip_l l = l.
Proof.
  intros H1 H2. unfold strip_l.
  assert (Hl : lstrip_l l = l)
    by (rewrite lstrip_l_step, (proj2 (ws_len_at l) H1); reflexivity).
  assert (Hr : rstrip_rev (rev l) = rev l)
    by (rewrite rstrip_rev_step, (proj2 (ws_len_rev_at (rev l)) H2); reflexivity).
  rewrite Hl, Hr, rev_involutive. reflexivity.
Qed.

Lemma utf8_valid_app (l1 l2 : list ascii) :
  utf8_valid l1 = true -> utf8_valid l2 = true -> utf8_valid (l1 ++ l2) = true.
Proof.
  intros H1 H2. revert l1 H1; apply (list_len_ind (fun l1 => utf8_valid l1 = true -> _)).
  intros l1 IH H1.
  destruct l1 as [|a r]; [exact H2|].
  cbn [app utf8_valid] in *.
  destruct (byte a <? 128); [apply IH; [cbn; lia|exact H1]|].
  destruct ((194 <=? byte a) && (byte a <=? 223)).
  { destruct r as [|b r1]; [discriminate|]. cbn [app].
    apply andb_true_iff in H1 as [Hb H1]. rewrite Hb. apply IH; [cbn; lia|exact H1]. }
  destruct ((224 <=? byte a) && (byte a <=? 239)).
  { destruct r as [|b [|c r2]]; try discriminate. cbn [app].
    apply andb_true_iff in H1 as [Hb H1]. rewrite Hb. apply IH; [cbn; lia|exact H1]. }
  destruct ((240 <=? byte a) && (byte a <=? 244)); [|discriminate].
  destruct r as [|b [|c [|d r3]]]; try discriminate. cbn [app].
  apply andb_true_iff in H1 as [Hb H1]. rewrite Hb. apply IH; [cbn; lia|exact H1].
Qed.

Lemma translate_no_cr (n : nat) (s : string) (c : ascii) :
  (String.length s <= n)%nat -> In c (chars (translate_newlines s)) -> c <> cr.
Proof.
  revert s; induction n as [|n IH]; intros s Hs Hin.
  - destruct s; [destruct Hin|simpl in Hs; lia].
  - destruct s as [|x r]; [destruct Hin|]. simpl in Hs.
    cbn [translate_newlines] in Hin.
    destruct (Ascii.eqb x cr) eqn:Hx.
    + destruct r as [|y r2].
      * destruct Hin as [<-|[]]; discriminate.
      * destruct (Ascii.eqb y nl); cbn [chars In] in Hin;
          (destruct Hin as [<-|Hin]; [discriminate|]);
          (eapply IH; [|exact Hin]; simpl in *; lia).
    + cbn [chars In] in Hin. destruct Hin as [<-|Hin].
      * intros ->; rewrite Ascii.eqb_refl in Hx; discriminate.
      * apply (IH r ltac:(lia) Hin).
Qed.

Lemma translate_id (s : string) : ~ In cr (chars s) -> translate_newlines s = s.
Proof.
  induction s as [|x r IH]; intros H; [reflexivity|].
  cbn [translate_newlines]. destruct (Ascii.eqb_spec x cr) as [->|Hx].
  - exfalso; apply H; left; reflexivity.
  - rewrite IH; [reflexivity|]. intros H'; apply H; right; exact H'.
Qed.

Lemma split_nl_pieces (t x : string) (c : ascii) :
  In x (split_nl t) -> In c (chars x) -> In c (chars t) /\ c <> nl.
Proof.
  revert x; induction t as [|y t IH]; intros x Hx Hc.
  - destruct Hx as [<-|[]]; destruct Hc.
  - cbn [split_nl] in Hx. destruct (Ascii.eqb_spec y nl) as [->|Hy].
    + destruct Hx as [<-|Hx]; [destruct Hc|].
      destruct (IH x Hx Hc); split; [right|]; assumption.
    + destruct (split_nl t) as [|z zs] eqn:Hs.
      * destruct Hx as [<-|[]]. destruct Hc as [<-|[]]. split; [left; reflexivity|exact Hy].
      * destruct Hx as [<-|Hx].
        -- destruct Hc as [<-|Hc]; [split; [left; reflexivity|exact Hy]|].
           destruct (IH z (or_introl eq_refl) Hc); split; [right|]; assumption.
        -- destruct (IH x (or_intror Hx) Hc); split; [right|]; assumption.
Qed.

Lemma In_removelast {A} (l : list A) (x : A) : In x (removelast l) -> In x l.
Proof.
  induction l as [|y l IH]; simpl; [tauto|].
  destruct l as [|z l]; [tauto|]. intros [H|H]; [left; exact H|right; apply IH; exact H].
Qed.

Lemma In_last {A} (l : list A) (d : A) : l <> [] -> In (last l d) l.
Proof.
  induction l as [|y l IH]; intros H; [congruence|].
  destruct l as [|z l]; [left; reflexivity|]. right; apply IH; discriminate.
Qed.

Lemma split_nl_nonempty (t : string) : split_nl t <> [].
Proof.
  destruct t as [|y t]; cbn [split_nl]; [discriminate|].
  destruct (Ascii.eqb y nl); [discriminate|]. destruct (split_nl t); discriminate.
Qed.

Lemma file_lines_pieces (s x : string) :
  In x (file_lines s) ->
  exists p, In p (split_nl (translate_newlines s))
            /\ (x = (p ++ String nl EmptyString)%string \/ x = p).
Proof.
  unfold file_lines; intros H. apply in_app_or in H as [H|H].
  - apply in_map_iff in H as (p & <- & Hp). exists p; split; [apply In_removelast; exact Hp|].
    left; reflexivity.
  - set (segs := split_nl (translate_newlines s)) in *.
    destruct (last segs "") as [|c r] eqn:Hl; [destruct H|].
    destruct H as [<-|[]]. exists (String c r); split; [|right; reflexivity].
    rewrite <- Hl; apply In_last, split_nl_nonempty.
Qed.

Lemma strip_line (p : string) (b : bool) :
  py_strip (if b then (p ++ String nl EmptyString)%string else p) = py_strip p.
Proof.
  destruct b; [|reflexivity].
  unfold py_strip. f_equal. fold (strip_l (chars (p ++ String nl ""))).
  fold (strip_l (chars p)). rewrite chars_app.
  apply strip_app_space; [reflexivity|unfold byte; cbn; lia].
Qed.

Lemma clean_name_spec (n : string) :
  clean_name n = true <->
  exists a r, chars n = a :: r /\ a <> "#"%char /\ is_space a = false
    /\ is_space (last (a :: r) a) = false /\ ~ In nl (a :: r) /\ ~ In cr (a :: r).
Proof.
  destruct n as [|a n]; cbn [clean_name chars].
  - split; [discriminate|]. intros (a & r & H & _); discriminate.
  - rewrite !andb_true_iff, !negb_true_iff, forallb_forall.
    split.
    + intros (((Ha & Hs) & Hl) & Hf). exists a, (chars n).
      repeat split; auto.
      * intros ->; discriminate.
      * intros Hin; specialize (Hf nl Hin); rewrite Ascii.eqb_refl in Hf; discriminate.
      * intros Hin; specialize (Hf cr Hin); rewrite Ascii.eqb_refl, orb_true_r in Hf;
          discriminate.
    + intros (a' & r & Heq & Ha & Hs & Hl & Hnl & Hcr). injection Heq as <- <-.
      repeat split; auto.
      * apply Ascii.eqb_neq; exact Ha.
      * intros x Hx. apply negb_true_iff, orb_false_iff; split; apply Ascii.eqb_neq;
          intros ->; contradiction.
Qed.

(** X11. [read_procedures_from_file] returns only stripped, non-empty,
    non-comment, single-line names; on a missing or unreadable file it
    prints one message and exits with status 1. *)
Theorem read_procedures_clean (filename : string) (f : file_read) :
  match read_procedures_from_file filename f with
  | (_, Procedures names) => Forall (fun n => clean_name n = true) names
  | (out, SysExit status) => status = 1 /\ length out = 1%nat
  end.
Proof.
  destruct f as [|e|s]; cbn [read_procedures_from_file]; [split; reflexivity..|].
  destruct (utf8_valid (chars s)); [|split; reflexivity].
  apply Forall_forall; intros n Hn.
  apply filter_In in Hn as [Hn Hk]. apply in_map_iff in Hn as (x & <- & Hx).
  destruct (file_lines_pieces s x Hx) as (p & Hp & Hxp).
  assert (Hs : py_strip x = py_strip p)
    by (destruct Hxp as [-> | ->]; [apply (strip_line p true)|reflexivity]).
  rewrite Hs in Hk |- *. apply clean_name_spec.
  unfold keep_procedure in Hk. apply andb_true_iff in Hk as [Hne Hh].
  pose proof (chars_py_strip p) as Hc.
  destruct (strip_shape (chars p)) as [He|(a & r & Har & Ha & Hl)].
  - rewrite He in Hc. destruct (py_strip p); [discriminate|discriminate].
  - rewrite Har in Hc. exists a, r. split; [exact Hc|].
    assert (Hinc : forall c, In c (a :: r) -> In c (chars (translate_newlines s)) /\ c <> nl).
    { intros c Hin. rewrite <- Har in Hin. apply strip_incl in Hin.
      exact (split_nl_pieces _ _ _ Hp Hin). }
    repeat split; auto.
    + intros ->. destruct (py_strip p) as [|a' n']; [discriminate|].
      cbn [chars] in Hc. injection Hc as Ha1 _. subst a'. cbn [startswith] in Hh. rewrite Ascii.eqb_refl in Hh. destruct n'; discriminate Hh.
    + intros Hin. apply (proj2 (Hinc nl Hin)). reflexivity.
    + intros Hin. apply (translate_no_cr _ s cr (le_n _) (proj1 (Hinc cr Hin))).
      reflexivity.
Qed.

Lemma split_nl_no_nl (n : string) : ~ In nl (chars n) -> split_nl n = [n].
Proof.
  induction n as [|c n IH]; intros H; [reflexivity|].
  cbn [split_nl]. destruct (Ascii.eqb_spec c nl) as [->|Hc].
  - exfalso; apply H; left; reflexivity.
  - rewrite IH; [reflexivity|]. intros H'; apply H; right; exact H'.
Qed.

Lemma split_nl_app (n rest : string) :
  ~ In nl (chars n) -> split_nl (n ++ String nl rest) = n :: split_nl rest.
Proof.
  induction n as [|c n IH]; intros H.
  - cbn [append split_nl]. rewrite Ascii.eqb_refl. reflexivity.
  - cbn [append split_nl]. destruct (Ascii.eqb_spec c nl) as [->|Hc].
    + exfalso; apply H; left; reflexivity.
    + rewrite IH; [reflexivity|]. intros H'; apply H; right; exact H'.
Qed.

Lemma split_nl_concat (names : list string) :
  names <> [] -> Forall (fun n => ~ In nl (chars n)) names ->
  split_nl (String.concat (String nl EmptyString) names) = names.
Proof.
  induction names as [|n names IH]; intros Hne Hf; [congruence|].
  inversion Hf as [|? ? Hn Hf']; subst.
  destruct names as [|m names].
  - apply split_nl_no_nl; exact Hn.
  - change (String.concat (String nl "") (n :: m :: names))
      with (n ++ String nl "" ++ String.concat (String nl "") (m :: names))%string.
    cbn [append]. rewrite split_nl_app by exact Hn. rewrite IH by (discriminate || exact Hf').
    reflexivity.
Qed.

Lemma concat_no_cr (names : list string) :
  Forall (fun n => ~ In cr (chars n)) names ->
  ~ In cr (chars (String.concat (String nl EmptyString) names)).
Proof.
  induction names as [|n names IH]; intros Hf; [intros []|].
  inversion Hf as [|? ? Hn Hf']; subst.
  destruct names as [|m names]; [exact Hn|].
  change (String.concat (String nl "") (n :: m :: names))
    with (n ++ String nl "" ++ String.concat (String nl "") (m :: names))%string.
  rewrite chars_app. intros Hin. apply in_app_or in Hin as [Hin|[Hin|Hin]].
  - exact (Hn Hin).
  - discriminate Hin.
  - exact (IH Hf' Hin).
Qed.

Lemma clean_name_u_spec (n : string) :
  clean_name_u n = true ->
  clean_name n = true /\ utf8_valid (chars n) = true
  /\ ws_at (chars n) = false /\ ws_at_rev (rev (chars n)) = false.
Proof.
  unfold clean_name_u. rewrite !andb_true_iff, !negb_true_iff. tauto.
Qed.

Lemma py_strip_clean (n : string) : clean_name_u n = true -> py_strip n = n.
Proof.
  intros Hc. apply clean_name_u_spec in Hc as (_ & _ & H1 & H2).
  unfold py_strip. rewrite strip_id_u by assumption. apply str_of_chars.
Qed.

Lemma utf8_valid_concat (names : list string) :
  Forall (fun n => utf8_valid (chars n) = true) names ->
  utf8_valid (chars (String.concat (String nl EmptyString) names)) = true.
Proof.
  induction names as [|n names IH]; intros Hf; [reflexivity|].
  inversion Hf as [|? ? Hn Hf']; subst.
  destruct names as [|m names]; [exact Hn|].
  change (String.concat (String nl "") (n :: m :: names))
    with (n ++ String nl "" ++ String.concat (String nl "") (m :: names))%string.
  rewrite !chars_app. apply utf8_valid_app; [exact Hn|].
  apply utf8_valid_app; [reflexivity|exact (IH Hf')].
Qed.

Lemma keep_clean (n : string) : clean_name n = true -> keep_procedure n = true.
Proof.
  intros Hc. apply clean_name_spec in Hc as (a & r & Hn & Hh & _).
  destruct n as [|a' n]; [discriminate|]. cbn [chars] in Hn. injection Hn as -> _.
  unfold keep_procedure. cbn [String.eqb startswith negb].
  apply Ascii.eqb_neq in Hh. rewrite Ascii.eqb_sym, Hh. reflexivity.
Qed.

(** X12. A list of procedure names written one per line is read back
    unchanged, in order, when each name is clean ([clean_name]), valid
    UTF-8 and has no Unicode white space at either end ([clean_name_u]). *)
Theorem read_procedures_roundtrip (filename : string) (names : list string)
    (Hclean : Forall (fun n => clean_name_u n = true) names) :
  read_procedures_from_file filename
    (FileText (String.concat (String nl EmptyString) names))
  = ([], Procedures names).
Proof.
  assert (Hc : forall n, In n names -> clean_name n = true).
  { intros n Hn. rewrite Forall_forall in Hclean.
    exact (proj1 (clean_name_u_spec n (Hclean n Hn))). }
  cbn [read_procedures_from_file].
  rewrite utf8_valid_concat.
  2: { apply Forall_forall; intros n Hn. rewrite Forall_forall in Hclean.
       exact (proj1 (proj2 (clean_name_u_spec n (Hclean n Hn)))). }
  f_equal. f_equal.
  assert (Hsp : forall n, In n names -> ~ In nl (chars n) /\ ~ In cr (chars n)).
  { intros n Hn.
    destruct (proj1 (clean_name_spec n) (Hc n Hn)) as (a & r & -> & _ & _ & _ & ? & ?).
    split; assumption. }
  destruct names as [|n0 names0] eqn:Heq.
  - reflexivity.
  - rewrite <- Heq in *. unfold file_lines.
    rewrite translate_id.
    2: { apply concat_no_cr, Forall_forall. intros n Hn; apply (Hsp n Hn). }
    rewrite split_nl_concat.
    2: { subst; discriminate. }
    2: { apply Forall_forall. intros n Hn; apply (Hsp n Hn). }
    assert (Hne : names <> []) by (subst; discriminate).
    assert (Hlast : last names "" <> "").
    { intros He. pose proof (Hc _ (In_last names "" Hne)) as Hc'.
      rewrite He in Hc'. discriminate. }
    destruct (last names "") as [|c r] eqn:Hl; [congruence|].
    rewrite <- Hl. clear c r Hl Hlast.
    rewrite map_app, map_map. cbn [map].
    rewrite (map_ext_in _ py_strip).
    2: { intros n Hn. apply (strip_line n true). }
    change [py_strip (last names "")] with (map py_strip [last names ""]).
    rewrite <- map_app, <- app_removelast_last by exact Hne.
    rewrite (map_ext_in _ (fun n => n)), map_id.
    2: { intros n Hn. rewrite Forall_forall in Hclean. apply py_strip_clean, Hclean, Hn. }
    apply filter_id_forall, Forall_forall. intros n Hn.
    apply keep_clean, Hc, Hn.
Qed.

Lemma str_app_assoc (a b c : string) : ((a ++ b) ++ c)%string = (a ++ b ++ c)%string.
Proof. induction a as [|x a IH]; simpl; congruence. Qed.

Lemma replace_char_app (c : ascii) (new s t : string) :
  replace_char c new (s ++ t) = (replace_char c new s ++ replace_char c new t)%string.
Proof.
  induction s as [|x s IH]; [reflexivity|]. cbn [append replace_char].
  rewrite IH, <- str_app_assoc. reflexivity.
Qed.

Lemma replace_char_digits (new : string) (l : list ascii) :
  Forall (fun c => is_digit c = true) l -> replace_char "-" new (str_of l) = str_of l.
Proof.
  induction 1 as [|x l Hx _ IH]; [reflexivity|]. cbn [str_of replace_char].
  rewrite IH. destruct (Ascii.eqb_spec "-" x) as [<-|]; [discriminate Hx|reflexivity].
Qed.

Lemma replace_dash_zfill (w : nat) (n : Z) : replace_char "-" "" (zfill w n) = zfill w n.
Proof. apply replace_char_digits, zpad_digits, z_digits_digits. Qed.

(** X14. report.py's output file is named after the report date with its
    dashes removed: YYYYMMDD followed by " reporte fci.pdf". *)
Theorem output_file_of_date (dt : date) :
  ReportMain.output_file (isoformat dt)
  = (zfill 4 (year dt) ++ zfill 2 (month dt) ++ zfill 2 (day dt) ++ " reporte fci.pdf")%string.
Proof.
  unfold ReportMain.output_file, isoformat. rewrite py_replace_char.
  rewrite !replace_char_app, !replace_dash_zfill. cbn [replace_char Ascii.eqb append].
  rewrite !str_app_assoc. reflexivity.
Qed.

Lemma page_break_check (es : list elem) :
  match rev es with
  | PageBreak :: r => forallb (fun e => negb (is_page_break e)) r
  | _ => false
  end = true -> ends_with_page_break es.
Proof.
  destruct (rev es) as [|e r] eqn:Hr; [discriminate|].
  destruct e; try discriminate. intros Hf. exists (rev r). split.
  - rewrite <- (rev_involutive es), Hr. reflexivity.
  - rewrite <- in_rev. intros Hin. rewrite forallb_forall in Hf.
    specialize (Hf _ Hin). discriminate Hf.
Qed.

(** X15. The output of every configured generator that succeeds ends with
    its only [PageBreak], so each sub-report ends its page. *)
Theorem configured_page_breaks (g : generator) (E : env) (report_date : string)
    (es : list elem)
    (Hg : In g (Report.sub_reports ++ ReportAum.sub_reports)%list)
    (Hes : grun g E report_date = Ok es) :
  ends_with_page_break es.
Proof.
  cbn [Report.sub_reports ReportAum.sub_reports app In] in Hg.
  repeat destruct Hg as [<-|Hg]; try destruct Hg; cbn [grun] in Hes;
  unfold Report.sub_report_cover, Report.sub_report_efec_gerente,
    Report.sub_report_efec_subcategoria, Report.sub_report_efec_categoria,
    Report.sub_report_summary, Report.sub_report_rentabilidades,
    Report.sub_report_fondos_sin_clasificar, ReportAum.sub_report_efec_subcategoria,
    ReportAum.sub_report_efec_categoria, ReportAum.sub_report_summary,
    sub_report_efec, exc_bind in Hes;
  repeat match type of Hes with
         | context [match ?x with _ => _ end] => destruct x
         end;
  try discriminate Hes; injection Hes as <-;
  apply page_break_check; reflexivity.
Qed.

(** ** Witnesses of the further properties *)

Lemma strptime_isoformat_roundtrip_witness :
  strptime_ymd (isoformat (mkdate 2024 2 29)) = Some (mkdate 2024 2 29).
Proof. apply strptime_isoformat_roundtrip; vm_compute; split; discriminate. Defined.

Lemma report_date_reparses_witness :
  get_report_date ["report.py"; "2025-03-13"] (Raise "connection refused") = Ok "2025-03-13".
Proof.
  apply (report_date_reparses ["report.py"] (Ok (Some sample_date)) "2025-03-13").
  - vm_compute. reflexivity.
  - intros dt H. injection H as <-. vm_compute. repeat split; discriminate.
Defined.

Lemma cleanup_deletes_scanned_images_witness :
  fst (generate_multi_report_pdf cenv_ok env_no_rows "20250313 reporte fci.pdf"
         [gen_dated "sub_report_a" "2025-03-13"; gen_raising] "2025-03-13" []) = Ok tt
  /\ image_paths (snd (generate_multi_report_pdf cenv_ok env_no_rows "20250313 reporte fci.pdf"
         [gen_dated "sub_report_a" "2025-03-13"; gen_raising] "2025-03-13" []))
     = flat_map (output_images cenv_ok env_no_rows "2025-03-13")
         [gen_dated "sub_report_a" "2025-03-13"; gen_raising]
  /\ files (snd (generate_multi_report_pdf cenv_ok env_no_rows "20250313 reporte fci.pdf"
         [gen_dated "sub_report_a" "2025-03-13"; gen_raising] "2025-03-13" []))
     = files_after_cleanup cenv_ok
         (flat_map (output_images cenv_ok env_no_rows "2025-03-13")
            [gen_dated "sub_report_a" "2025-03-13"; gen_raising]) [].
Proof.
  exact (cleanup_deletes_scanned_images cenv_ok env_no_rows "20250313 reporte fci.pdf"
           [gen_dated "sub_report_a" "2025-03-13"; gen_raising] "2025-03-13" [] eq_refl).
Defined.

Lemma sub_report_efec_ok_iff_witness :
  (exists es, Report.sub_report_efec_gerente env_wide_rows "2025-03-13" = Ok es)
  <-> Forall (fun r => forall i, In i [2; 3; 4; 5; 6; 7; 8]%nat ->
                exists v, nth_error r i = Some v
                          /\ match v with VNum _ _ | VDate _ => True | _ => False end)
         [repeat (VNum 5 1) 12].
Proof.
  exact (sub_report_efec_ok_iff Q_efec_gerente _ _ _ _ _ env_wide_rows "2025-03-13"
           [repeat (VNum 5 1) 12] eq_refl).
Defined.

Lemma rentabilidades_ok_iff_witness :
  (exists es, Report.sub_report_rentabilidades env_wide_rows "2025-03-13" = Ok es)
  <-> Forall (fun r => length r = 12%nat
                /\ (exists v, nth_error r 2 = Some v
                              /\ match v with VNum _ _ | VDate _ => True | _ => False end)
                /\ Forall (fun v => v = VNull \/ exists n d, v = VNum n d) (skipn 5 r))
         [repeat (VNum 5 1) 12].
Proof.
  exact (rentabilidades_ok_iff env_wide_rows "2025-03-13" [repeat (VNum 5 1) 12] eq_refl).
Defined.

Lemma configured_tables_match_widths_witness :
  Forall (fun e => match e with
                   | Table data widths => Forall (fun row => length row = length widths) data
                   | _ => True
                   end)
    (match Report.sub_report_rentabilidades env_wide_rows "2025-03-13" with
     | Ok es => es | Raise _ => [] end).
Proof.
  apply Forall_forall. intros e He. destruct e as [? ? | ? ? | | ? ? ? | data widths | ?]; try exact I.
  revert data widths He.
  apply (configured_tables_match_widths
           (mkgen "sub_report_rentabilidades" Report.sub_report_rentabilidades)
           env_wide_rows "2025-03-13").
  - apply in_or_app. left. do 5 right. left. reflexivity.
  - intros ps rows H. injection H as <-. repeat constructor.
  - vm_compute. reflexivity.
Defined.

Lemma read_procedures_roundtrip_witness :
  read_procedures_from_file "procedures.txt"
    (FileText (String.concat (String nl EmptyString) ["sp_carga_fci"; "sp_rentabilidades calc"]))
  = ([], Procedures ["sp_carga_fci"; "sp_rentabilidades calc"]).
Proof. apply read_procedures_roundtrip. repeat constructor. Defined.

Lemma configured_page_breaks_witness :
  ends_with_page_break
    (match ReportAum.sub_report_summary (env_one_row "/tmp/temp_chart.png" "savefig failed")
             "2025-03-13" with
     | Ok es => es | Raise _ => [] end).
Proof.
  apply (configured_page_breaks (mkgen "sub_report_summary" ReportAum.sub_report_summary)
           (env_one_row "/tmp/temp_chart.png" "savefig failed") "2025-03-13").
  - apply in_or_app. right. right. right. left. reflexivity.
  - vm_compute. reflexivity.
Defined.
